(** * A ledger over Express and Mongoose: [src/index.js]

  The development embeds the two route handlers of [src/index.js]
  ([POST /create-users] and [POST /transfer]) together with the part of
  the JavaScript runtime and of Mongoose that they exercise:

  - JavaScript numbers are IEEE-754 binary64 values.  They are modelled
    by [spec_float] of the Standard Library with [prec = 53] and
    [emax = 1024]; the arithmetic and the comparisons are the library's
    [SFadd], [SFsub], [SFcompare].
  - A request body is a record of three JSON values (or [undefined]).
  - The [users] collection is a finite map from [ObjectId]s to documents;
    store calls are logged in a trace and may be rejected by the driver.
  - [async]/[await] with [try]/[catch] is a state-and-exception monad. *)

From Stdlib Require Import ZArith QArith Ascii String DecimalString.
From Stdlib Require Import Floats.SpecFloat.
From stdpp Require Import base option list gmap strings.

Set Warnings "-register-all".
Local Open Scope Z_scope.

(** ** JavaScript numbers *)

Module JSNumber.

Definition prec : Z := 53.
Definition emax : Z := 1024.

Definition number : Type := spec_float.

Definition pos_zero : number := S754_zero false.
Definition pos_infinity : number := S754_infinity false.
Definition neg_infinity : number := S754_infinity true.
Definition NaN : number := S754_nan.

(** The double nearest to an integer, and the double nearest to the
    quotient [n / d] of two integers below [2^53]: what [JSON.parse]
    makes of an integer literal and of a decimal literal. *)
Definition of_Z (z : Z) : number := binary_normalize prec emax z 0 false.
Definition of_ratio (n d : Z) : number := SFdiv prec emax (of_Z n) (of_Z d).

Definition add : number -> number -> number := SFadd prec emax.
Definition sub : number -> number -> number := SFsub prec emax.

(** [x < y], [x <= y] and [x === y] on numbers: all three are false as
    soon as one side is [NaN]. *)
Definition lt : number -> number -> bool := SFltb.
Definition le : number -> number -> bool := SFleb.
Definition eq : number -> number -> bool := SFeqb.

(** Every value of the runtime is a canonical binary64. *)
Definition valid (x : number) : bool := valid_binary prec emax x.

Definition is_finite (x : number) : bool :=
  match x with
  | S754_zero _ | S754_finite _ _ _ => true
  | S754_infinity _ | S754_nan => false
  end.

(** [ToBoolean] on a number: [+0], [-0] and [NaN] are falsy. *)
Definition to_boolean (x : number) : bool :=
  match x with
  | S754_zero _ | S754_nan => false
  | S754_infinity _ | S754_finite _ _ _ => true
  end.

(** The real number a finite double stands for. *)
Definition to_Q (x : number) : option Q :=
  match x with
  | S754_zero _ => Some (0 # 1)%Q
  | S754_finite s m e =>
      Some (Qmult (inject_Z (if s then Z.neg m else Z.pos m))
                  (Qpower (2 # 1) e))
  | S754_infinity _ | S754_nan => None
  end.

End JSNumber.

(** ** [Number::toString] (ECMA-262, radix 10)

  The template literal of the success message converts the amount with
  [Number::toString]: the shortest decimal [s * 10^(n-k)] (with [k]
  digits) that rounds to the number, the one closest to it when several
  have that length, laid out in positional or exponent form by [n]. *)

Module NumberToString.
Import JSNumber.

Definition digits_of (s : Z) : string :=
  NilZero.string_of_uint (N.to_uint (Z.to_N s)).

Fixpoint zeros (n : nat) : string :=
  match n with
  | O => EmptyString
  | S n' => String "0"%char (zeros n')
  end.

(** Integer scales [(A, B)] with [v * 2^p2 ? s * 10^t] iff
    [v * B ? s * A], for any comparison [?]. *)
Definition scales (p2 t : Z) : Z * Z :=
  (10 ^ Z.max t 0 * 2 ^ Z.max (- p2) 0,
   2 ^ Z.max p2 0 * 10 ^ Z.max (- t) 0).

Definition ceil_div (a b : Z) : Z := - ((- a) / b).

(** The least [n] with [m * 2^e < 10^n], searching upwards from [n]. *)
Fixpoint magnitude (fuel : nat) (m e n : Z) : Z :=
  match fuel with
  | O => n
  | S fuel' =>
      let '(A, B) := scales e n in
      if m * B <? A then n else magnitude fuel' m e (n + 1)
  end.

(** A lower estimate of the magnitude, from [2^l <= m * 2^e] and
    [0.30102 < log10 2 < 0.30103]. *)
Definition magnitude_below (m : positive) (e : Z) : Z :=
  let l := Z.pos (digits2_pos m) + e - 1 in
  (l * (if l <? 0 then 30103 else 30102)) / 100000.

Definition closer (x A : Z) (best : option Z) (s : Z) : option Z :=
  match best with
  | None => Some s
  | Some b =>
      let db := Z.abs (b * A - x) in
      let ds := Z.abs (s * A - x) in
      if ds <? db then Some s
      else if (ds =? db) && Z.even s then Some s
      else best
  end.

(** The [k]-digit decimals [s * 10^(n-k)] inside the rounding interval
    [lo .. hi] of [x] (bounds in units of [2^p2], included when [incl]);
    the result is the one closest to [x], the even one on a tie. *)
Definition candidate (lo x hi : Z) (incl : bool) (p2 k n : Z) : option Z :=
  let '(A, B) := scales p2 (n - k) in
  let smin := if incl then ceil_div (lo * B) A else (lo * B) / A + 1 in
  let smax := if incl then (hi * B) / A else ceil_div (hi * B) A - 1 in
  let smin := Z.max smin (10 ^ (k - 1)) in
  let smax := Z.min smax (10 ^ k - 1) in
  if smax <? smin then None
  else
    let sf := (x * B) / A in
    let inside := List.filter (fun s => (smin <=? s) && (s <=? smax))
                              [smin; smax; sf; sf + 1] in
    List.fold_left (closer (x * B) A) inside None.

(** Whether [s1 * 10^(n0+1-k)] lies closer to [x] than [s0 * 10^(n0-k)],
    both taken in units of [10^(n0-k)]. *)
Definition nearer (x p2 n0 k s0 s1 : Z) : bool :=
  let '(A, B) := scales p2 (n0 - k) in
  Z.abs (10 * s1 * A - x * B) <? Z.abs (s0 * A - x * B).

(** Shortest digits: the first [k], counting up, with a candidate.  The
    number lies between [10^(n0-1)] and [10^n0], so a [k]-digit candidate
    has [n = n0] or, when it is a power of ten just above the number,
    [n = n0 + 1]; with one of each, the closer one is taken. *)
Fixpoint shortest (fuel : nat) (lo x hi : Z) (incl : bool) (p2 n0 k : Z)
  : Z * Z * Z :=
  match fuel with
  | O => (k, n0, 0)
  | S fuel' =>
      match candidate lo x hi incl p2 k n0,
            candidate lo x hi incl p2 k (n0 + 1) with
      | Some s0, Some s1 =>
          if nearer x p2 n0 k s0 s1 then (k, n0 + 1, s1) else (k, n0, s0)
      | Some s0, None => (k, n0, s0)
      | None, Some s1 => (k, n0 + 1, s1)
      | None, None => shortest fuel' lo x hi incl p2 n0 (k + 1)
      end
  end.

Definition layout (k n s : Z) : string :=
  let ds := digits_of s in
  let exponent (e : Z) :=
    String.append (if e <? 0 then "e-" else "e+") (digits_of (Z.abs e)) in
  if (k <=? n) && (n <=? 21) then
    String.append ds (zeros (Z.to_nat (n - k)))
  else if (0 <? n) && (n <=? 21) then
    String.append (substring 0 (Z.to_nat n) ds)
      (String.append "." (substring (Z.to_nat n) (Z.to_nat (k - n)) ds))
  else if (-6 <? n) && (n <=? 0) then
    String.append "0." (String.append (zeros (Z.to_nat (- n))) ds)
  else if k =? 1 then
    String.append ds (exponent (n - 1))
  else
    String.append (substring 0 1 ds)
      (String.append "."
         (String.append (substring 1 (Z.to_nat (k - 1)) ds)
                        (exponent (n - 1)))).

Definition positive_to_string (m : positive) (e : Z) : string :=
  let boundary := (Z.pos m =? 2 ^ (prec - 1)) && (emin prec emax <? e) in
  let x := 4 * Z.pos m in
  let lo := if boundary then x - 1 else x - 2 in
  let hi := x + 2 in
  let n0 := magnitude 8 (Z.pos m) e (magnitude_below m e) in
  let '(k, n, s) :=
    shortest 17 lo x hi (Z.even (Z.pos m)) (e - 2) n0 1 in
  layout k n s.

Definition Number_toString (x : number) : string :=
  match x with
  | S754_nan => "NaN"
  | S754_zero _ => "0"
  | S754_infinity false => "Infinity"
  | S754_infinity true => "-Infinity"
  | S754_finite false m e => positive_to_string m e
  | S754_finite true m e => String.append "-" (positive_to_string m e)
  end.

End NumberToString.

(** ** JSON values of a request body *)

Module JSValue.
Import JSNumber.

(** What [express.json()] hands to a handler for one field of the body:
    a JSON value, or [undefined] when the field is absent. *)
Inductive value : Type :=
| VUndefined
| VNull
| VBoolean (b : bool)
| VNumber (x : number)
| VString (s : string)
| VArray (items : list value)
| VObject (fields : list (string * value)).

Definition ToBoolean (v : value) : bool :=
  match v with
  | VUndefined | VNull => false
  | VBoolean b => b
  | VNumber x => to_boolean x
  | VString s => negb (String.eqb s EmptyString)
  | VArray _ | VObject _ => true
  end.

(** [!v] *)
Definition not (v : value) : bool := negb (ToBoolean v).

(** [a === b].  Arrays and objects are compared by identity, and two
    fields decoded from one body are never the same object. *)
Definition strict_equals (a b : value) : bool :=
  match a, b with
  | VUndefined, VUndefined => true
  | VNull, VNull => true
  | VBoolean x, VBoolean y => Bool.eqb x y
  | VNumber x, VNumber y => eq x y
  | VString x, VString y => String.eqb x y
  | _, _ => false
  end.

(** [typeof v === 'number'] *)
Definition is_number (v : value) : bool :=
  match v with VNumber _ => true | _ => false end.

End JSValue.

(** ** The [User] model and the store behind it *)

Module Mongoose.
Import JSNumber JSValue.

Definition ObjectId : Type := N.

(** A document of [userSchema], with the [_id] the store assigned. *)
Record User : Type := mkUser {
  _id : ObjectId;
  name : string;
  balance : number
}.

(** What a store call can throw: a value that does not cast to an
    [ObjectId], a document that fails validation on the listed paths, or
    an error of the driver (connection, server). *)
Inductive error : Type :=
| CastError (v : value)
| ValidationError (paths : list string)
| DriverError (message : string).

(** The calls a handler makes on the model, in order. *)
Inductive call : Type :=
| FindById (id : value)
| Save (doc : User)
| DeleteMany
| InsertMany (docs : list (string * number)).

(** The collection, the answers the driver still has to give ([Some m]
    rejects the next round trip with message [m]; an exhausted list
    never rejects), the next fresh [_id], and the calls made so far. *)
Record world : Type := mkWorld {
  users : gmap ObjectId User;
  faults : list (option string);
  next_id : ObjectId;
  calls : list call
}.

Inductive settled (A : Type) : Type :=
| Fulfilled (a : A)
| Rejected (e : error).
Arguments Fulfilled {A} a.
Arguments Rejected {A} e.

(** An awaited computation: it settles, and may change the world. *)
Definition promise (A : Type) : Type := world -> settled A * world.

Definition resolve {A : Type} (a : A) : promise A :=
  fun w => (Fulfilled a, w).

Definition reject {A : Type} (e : error) : promise A :=
  fun w => (Rejected e, w).

Definition bind {A B : Type} (p : promise A) (k : A -> promise B)
  : promise B :=
  fun w =>
    match p w with
    | (Fulfilled a, w') => k a w'
    | (Rejected e, w') => (Rejected e, w')
    end.

Definition try_catch {A : Type} (body : promise A)
    (handler : error -> promise A) : promise A :=
  fun w =>
    match body w with
    | (Fulfilled a, w') => (Fulfilled a, w')
    | (Rejected e, w') => handler e w'
    end.

(** The world once a call is on record, the driver's next answer, the
    world once that answer is used up, and the world once a document is
    written. *)
Definition logged (c : call) (w : world) : world :=
  mkWorld (users w) (faults w) (next_id w) (calls w ++ [c]).

Definition reply (w : world) : option string :=
  match faults w with
  | Some m :: _ => Some m
  | _ => None
  end.

Definition consumed (w : world) : world :=
  mkWorld (users w) (tail (faults w)) (next_id w) (calls w).

Definition stored (doc : User) (w : world) : world :=
  mkWorld (<[_id doc := doc]> (users w)) (faults w) (next_id w) (calls w).

Definition record_call (c : call) : promise unit :=
  fun w => (Fulfilled tt, logged c w).

Definition round_trip : promise unit :=
  fun w =>
    match faults w with
    | [] => (Fulfilled tt, w)
    | None :: rest =>
        (Fulfilled tt, mkWorld (users w) rest (next_id w) (calls w))
    | Some m :: rest =>
        (Rejected (DriverError m),
         mkWorld (users w) rest (next_id w) (calls w))
    end.

(** [userSchema]: [name] is required (an empty string does not count),
    [balance] is required with [min: 0], which [NaN] does not meet.  The
    failing paths are reported with [balance] before [name]. *)
Definition invalid_paths (n : string) (b : number) : list string :=
  (if le pos_zero b then [] else ["balance"]) ++
  (if String.eqb n EmptyString then ["name"] else []).

Definition validate (n : string) (b : number) : promise unit :=
  match invalid_paths n b with
  | [] => resolve tt
  | paths => reject (ValidationError paths)
  end.

Notation "'await' x '<~' p 'in' k" := (bind p (fun x => k))
  (at level 10, x name, p at level 200, k at level 200, only parsing).

(** [Model.findById], [doc.save], [Model.deleteMany({})] and
    [Model.insertMany].  The cast of a value to an [ObjectId] is Mongoose's
    and differs between its versions: it is a parameter.  A value that
    does not cast rejects the query before it reaches the driver.

    [findById] covers the identifiers that Mongoose casts: a string, which
    names at most one [ObjectId].  An object with operator keys or an
    array is not cast by Mongoose but sent on as a filter, which can
    select a document that depends on the collection; statements that are
    meant for every identifier are therefore phrased by what a lookup
    returns, not by what its identifier casts to. *)
Section Model.
Variable castObjectId : value -> option ObjectId.

Definition findById (id : value) : promise (option User) :=
  await _ <~ record_call (FindById id) in
  match castObjectId id with
  | None => reject (CastError id)
  | Some oid =>
      await _ <~ round_trip in
      fun w => (Fulfilled (users w !! oid), w)
  end.

Definition save (doc : User) : promise unit :=
  await _ <~ record_call (Save doc) in
  await _ <~ validate (name doc) (balance doc) in
  await _ <~ round_trip in
  fun w => (Fulfilled tt, stored doc w).

Definition deleteMany : promise unit :=
  await _ <~ record_call DeleteMany in
  await _ <~ round_trip in
  fun w => (Fulfilled tt, mkWorld ∅ (faults w) (next_id w) (calls w)).

Fixpoint validate_all (docs : list (string * number)) : promise unit :=
  match docs with
  | [] => resolve tt
  | (n, b) :: rest => await _ <~ validate n b in validate_all rest
  end.

Fixpoint new_docs (id : ObjectId) (docs : list (string * number))
  : list User :=
  match docs with
  | [] => []
  | (n, b) :: rest => mkUser id n b :: new_docs (N.succ id) rest
  end.

Fixpoint insert_docs (docs : list User) (m : gmap ObjectId User)
  : gmap ObjectId User :=
  match docs with
  | [] => m
  | d :: rest => insert_docs rest (<[_id d := d]> m)
  end.

Definition insertMany (docs : list (string * number))
  : promise (list User) :=
  await _ <~ record_call (InsertMany docs) in
  await _ <~ validate_all docs in
  await _ <~ round_trip in
  fun w =>
    let created := new_docs (next_id w) docs in
    (Fulfilled created,
     mkWorld (insert_docs created (users w)) (faults w)
             (next_id w + N.of_nat (length docs))%N (calls w)).

End Model.

End Mongoose.

(** ** The routes of [src/index.js] *)

Module Routes.
Import JSNumber NumberToString JSValue Mongoose.

(** [req.body] after [const { fromUserId, toUserId, amount } = req.body]. *)
Record request : Type := mkRequest {
  fromUserId : value;
  toUserId : value;
  amount : value
}.

(** The argument of [res.json].  The [error] of [MessageError] stands for
    the [error.message] of the error that was caught. *)
Inductive json : Type :=
| Message (message : string)
| MessageError (message : string) (error : error)
| Transferred (message : string) (senderBalance receiverBalance : number)
| UsersCreated (message : string) (users : list User).

(** [res.status(status).json(body)] *)
Record response : Type := mkResponse {
  status : Z;
  body : json
}.

(** The number held by a value whose [typeof] is ['number']. *)
Definition number_of (v : value) : number :=
  match v with VNumber x => x | _ => NaN end.

Definition usersData : list (string * number) :=
  [("Alice", of_Z 1000); ("Bob", of_Z 500)].

Section Handlers.
Variable castObjectId : value -> option ObjectId.

(** [app.post('/create-users', ...)] *)
Definition create_users : promise response :=
  try_catch
    (await _ <~ deleteMany in
     await createdUsers <~ insertMany usersData in
     resolve (mkResponse 201 (UsersCreated "Users created" createdUsers)))
    (fun error =>
       resolve (mkResponse 500 (MessageError "Error creating users" error))).

(** [app.post('/transfer', ...)] *)
Definition transfer (req : request) : promise response :=
  let fromUserId := fromUserId req in
  let toUserId := toUserId req in
  let amount := amount req in
  if not fromUserId || not toUserId || not amount then
    resolve (mkResponse 400
               (Message "Missing fromUserId, toUserId, or amount"))
  else if negb (is_number amount) || le (number_of amount) pos_zero then
    resolve (mkResponse 400 (Message "Invalid transfer amount"))
  else if strict_equals fromUserId toUserId then
    resolve (mkResponse 400 (Message "Cannot transfer to the same account"))
  else
    try_catch
      (await fromUser <~ findById castObjectId fromUserId in
       await toUser <~ findById castObjectId toUserId in
       match fromUser with
       | None =>
           resolve (mkResponse 404 (Message "Sender account not found"))
       | Some fromUser =>
           match toUser with
           | None =>
               resolve
                 (mkResponse 404 (Message "Receiver account not found"))
           | Some toUser =>
               if lt (balance fromUser) (number_of amount) then
                 resolve (mkResponse 400 (Message "Insufficient balance"))
               else
                 let fromUser :=
                   mkUser (_id fromUser) (name fromUser)
                          (sub (balance fromUser) (number_of amount)) in
                 let toUser :=
                   mkUser (_id toUser) (name toUser)
                          (add (balance toUser) (number_of amount)) in
                 await _ <~ save fromUser in
                 await _ <~ save toUser in
                 resolve
                   (mkResponse 200
                      (Transferred
                         ("Transferred $" +:+ Number_toString (number_of amount)
                            +:+ " from " +:+ name fromUser
                            +:+ " to " +:+ name toUser)
                         (balance fromUser) (balance toUser)))
           end
       end)
      (fun error =>
         resolve
           (mkResponse 500
              (MessageError "An error occurred during the transfer" error))).

End Handlers.

End Routes.

(** ** The vocabulary of the specification *)

Module Ledger.
Import JSNumber NumberToString JSValue Mongoose Routes.

(** The outcomes a transfer can report. *)
Inductive kind : Type :=
| Success
| MissingField
| InvalidAmount
| SelfTransfer
| SourceNotFound
| DestinationNotFound
| InsufficientFunds
| OperationalFailure.

(** The outcome a response of [POST /transfer] stands for, read off its
    body. *)
Definition kind_of (r : response) : option kind :=
  match body r with
  | Message m =>
      if String.eqb m "Missing fromUserId, toUserId, or amount"
      then Some MissingField
      else if String.eqb m "Invalid transfer amount" then Some InvalidAmount
      else if String.eqb m "Cannot transfer to the same account"
      then Some SelfTransfer
      else if String.eqb m "Sender account not found"
      then Some SourceNotFound
      else if String.eqb m "Receiver account not found"
      then Some DestinationNotFound
      else if String.eqb m "Insufficient balance"
      then Some InsufficientFunds
      else None
  | MessageError m _ =>
      if String.eqb m "An error occurred during the transfer"
      then Some OperationalFailure
      else None
  | Transferred _ _ _ => Some Success
  | UsersCreated _ _ => None
  end.

(** The status the specification assigns to each outcome: OK,
    Bad Request, Not Found, Internal Error. *)
Definition spec_status (k : kind) : Z :=
  match k with
  | Success => 200
  | MissingField | InvalidAmount | SelfTransfer | InsufficientFunds => 400
  | SourceNotFound | DestinationNotFound => 404
  | OperationalFailure => 500
  end.

(** An identifier that is a string when the body carries it, and an
    amount that is truthy when the body carries it.  What this leaves out
    is an identifier of another type, and an amount that is carried and
    falsy: [null], [false], [0], [NaN], the empty string. *)
Definition identifier_or_absent (v : value) : bool :=
  match v with
  | VUndefined | VString _ => true
  | _ => false
  end.

Definition truthy_or_absent (v : value) : bool :=
  match v with
  | VUndefined => true
  | _ => ToBoolean v
  end.

(** *** The preconditions, in the words of the specification

    The definitions from [present] to [first_violated] follow section 4.1
    of the specification, not the handler. *)

(** A field is present when the body carries it; an identifier is
    non-empty when it is not the empty string. *)
Definition present (v : value) : Prop := v <> VUndefined.

Definition non_empty (v : value) : Prop := v <> VString EmptyString.

(** A number strictly greater than zero; a finite one when [finite] is
    set, as precondition 2 is worded. *)
Definition positive_number (finite : bool) (v : value) : Prop :=
  exists a,
    v = VNumber a /\ lt pos_zero a = true /\
    (finite = true -> is_finite a = true).

Section Resolution.
Variable castObjectId : value -> option ObjectId.

(** The account an identifier resolves to in a store, if any. *)
Definition resolves (w : world) (id : value) : option User :=
  match castObjectId id with
  | Some oid => users w !! oid
  | None => None
  end.

(** Two identifiers are the same when they are the same value, or name
    the same [ObjectId]. *)
Definition same_identifier (a b : value) : Prop :=
  a = b \/ exists i, castObjectId a = Some i /\ castObjectId b = Some i.

(** Precondition [k] holds of a request in a store.  The last one,
    [balance >= amount], speaks of the source account, which the fourth
    one provides. *)
Definition precondition (finite : bool) (w : world) (req : request)
    (k : kind) : Prop :=
  match k with
  | MissingField =>
      (present (fromUserId req) /\ non_empty (fromUserId req)) /\
      (present (toUserId req) /\ non_empty (toUserId req)) /\
      present (amount req)
  | InvalidAmount => positive_number finite (amount req)
  | SelfTransfer => ~ same_identifier (fromUserId req) (toUserId req)
  | SourceNotFound => is_Some (resolves w (fromUserId req))
  | DestinationNotFound => is_Some (resolves w (toUserId req))
  | InsufficientFunds =>
      forall src, resolves w (fromUserId req) = Some src ->
        le (number_of (amount req)) (balance src) = true
  | Success | OperationalFailure => True
  end.

(** The order in which the preconditions are checked. *)
Definition checked_in_order : list kind :=
  [MissingField; InvalidAmount; SelfTransfer; SourceNotFound;
   DestinationNotFound; InsufficientFunds].

(** [k] is the first precondition violated: those checked before it
    hold, and it does not. *)
Definition first_violated (finite : bool) (w : world) (req : request)
    (k : kind) : Prop :=
  exists earlier later,
    checked_in_order = earlier ++ k :: later /\
    Forall (precondition finite w req) earlier /\
    ~ precondition finite w req k.

(** The two identifiers of a request, when they name the same
    [ObjectId], are spelled the same. *)
Definition one_spelling (req : request) : Prop :=
  forall i,
    castObjectId (fromUserId req) = Some i ->
    castObjectId (toUserId req) = Some i ->
    fromUserId req = toUserId req.

End Resolution.

(** The driver answers the next [n] round trips. *)
Definition answers (n : nat) (w : world) : bool :=
  forallb (fun f => match f with None => true | Some _ => false end)
          (take n (faults w)).

(** Once the three validation checks pass, both lookups complete: both
    identifiers cast to an [ObjectId] and the driver answers both
    queries. *)
Definition lookups_complete (castObjectId : value -> option ObjectId)
    (w : world) (req : request) : Prop :=
  is_Some (castObjectId (fromUserId req)) /\
  is_Some (castObjectId (toUserId req)) /\
  answers 2 w = true.

(** [balance >= 0] for every stored account. *)
Definition non_negative (m : gmap ObjectId User) : Prop :=
  map_Forall (fun _ u => le pos_zero (balance u) = true) m.

(** A document as the runtime and the schema allow it: its balance is a
    binary64 value, and it passes the validators of [userSchema]. *)
Definition well_formed (u : User) : bool :=
  valid (balance u) && bool_decide (invalid_paths (name u) (balance u) = []).

(** The success message as the specification words it. *)
Definition spec_message (a : number) (source destination : string) : string :=
  "Transferred " +:+ Number_toString a +:+ " from " +:+ source
    +:+ " to " +:+ destination.

(** Conservation of the sum of two balances, on the real numbers that
    the doubles stand for. *)
Definition conserved (b d b' d' : number) : Prop :=
  match to_Q b, to_Q d, to_Q b', to_Q d' with
  | Some qb, Some qd, Some qb', Some qd' =>
      Qeq (Qplus qb' qd') (Qplus qb qd)
  | _, _, _, _ => False
  end.

(** The same, as a script would test it: [b' + d' === b + d]. *)
Definition conserved_js (b d b' d' : number) : bool :=
  eq (add b' d') (add b d).

(** A difference or a sum of doubles that needed no rounding. *)
Definition exact_sub (b a : number) : Prop :=
  match to_Q b, to_Q a, to_Q (sub b a) with
  | Some qb, Some qa, Some q => Qeq q (Qminus qb qa)
  | _, _, _ => False
  end.

Definition exact_add (d a : number) : Prop :=
  match to_Q d, to_Q a, to_Q (add d a) with
  | Some qd, Some qa, Some q => Qeq q (Qplus qd qa)
  | _, _, _ => False
  end.

End Ledger.

(** ** A concrete deployment, for examples

    An [ObjectId] cast that accepts exactly the strings of 24 hexadecimal
    digits (either case), and the store right after [POST /create-users]. *)

Module Deployment.
Import JSNumber NumberToString JSValue Mongoose Routes.

Definition hex_digit (c : ascii) : option N :=
  let n := N_of_ascii c in
  if (48 <=? n)%N && (n <=? 57)%N then Some (n - 48)%N
  else if (97 <=? n)%N && (n <=? 102)%N then Some (n - 87)%N
  else if (65 <=? n)%N && (n <=? 70)%N then Some (n - 55)%N
  else None.

Fixpoint parse_hex (s : string) (acc : N) : option N :=
  match s with
  | EmptyString => Some acc
  | String c rest =>
      match hex_digit c with
      | Some d => parse_hex rest (16 * acc + d)%N
      | None => None
      end
  end.

Definition hex24 (v : value) : option ObjectId :=
  match v with
  | VString s =>
      if Nat.eqb (String.length s) 24 then parse_hex s 0%N else None
  | _ => None
  end.

Definition alice_id : value := VString "65a1f0c2b7d4e8a9c3f10001".
Definition bob_id : value := VString "65a1f0c2b7d4e8a9c3f10002".
Definition nobody_id : value := VString "65a1f0c2b7d4e8a9c3f1ffff".

(** An empty store whose driver answers as scripted by [script]. *)
Definition fresh (script : list (option string)) : world :=
  mkWorld ∅ script 0x65a1f0c2b7d4e8a9c3f10001%N [].

(** The store after a successful seeding, with no call on record. *)
Definition seeded (script : list (option string)) : world :=
  let w := snd (create_users (fresh [])) in
  mkWorld (users w) script (next_id w) [].

Definition alice_oid : ObjectId := 0x65a1f0c2b7d4e8a9c3f10001%N.
Definition bob_oid : ObjectId := 0x65a1f0c2b7d4e8a9c3f10002%N.
Definition alice : User := mkUser alice_oid "Alice" (of_Z 1000).
Definition bob : User := mkUser bob_oid "Bob" (of_Z 500).

Definition send (source destination : value) (a : number) : request :=
  mkRequest source destination (VNumber a).

(** The store after Alice has sent 999.1 to Bob: she holds
    0.8999999999999773 and he holds 1499.1. *)
Definition drained : world :=
  let w := snd (transfer hex24 (send alice_id bob_id (of_ratio 9991 10))
                         (seeded [])) in
  mkWorld (users w) [] (next_id w) [].

(** The seeded store behind a driver that answers three calls and
    rejects the fourth. *)
Definition fourth_call_fails : world :=
  seeded [None; None; None; Some "connection lost"].

Definition alice_left : number := sub (of_Z 1000) (of_ratio 9991 10).
Definition bob_got : number := add (of_Z 500) (of_ratio 9991 10).

End Deployment.


(** ** The paths through [POST /transfer]

    The handler leaves through one of fifteen exits.  Each is described by
    the tests that lead to it, the response it sends and the world it
    leaves; [transfer_follows_a_path], below, shows that the handler
    always takes one of them. *)

Module Paths.
Import JSNumber NumberToString JSValue Mongoose Routes Ledger.

(** The first and the second test of the handler ([true]: rejected). *)
Definition missing (req : request) : bool :=
  not (fromUserId req) || not (toUserId req) || not (amount req).

Definition invalid (req : request) : bool :=
  negb (is_number (amount req)) || le (number_of (amount req)) pos_zero.

(** The request got past the three tests on its fields. *)
Definition validated (req : request) : Prop :=
  missing req = false /\ invalid req = false /\
  strict_equals (fromUserId req) (toUserId req) = false.

(** The documents the handler saves, and the worlds between its calls. *)
Definition debited (req : request) (src : User) : User :=
  mkUser (_id src) (name src) (sub (balance src) (number_of (amount req))).

Definition credited (req : request) (dst : User) : User :=
  mkUser (_id dst) (name dst) (add (balance dst) (number_of (amount req))).

Definition after_first (req : request) (w : world) : world :=
  consumed (logged (FindById (fromUserId req)) w).

Definition after_second (req : request) (w : world) : world :=
  consumed (logged (FindById (toUserId req)) (after_first req w)).

Definition after_debit (req : request) (src : User) (w : world) : world :=
  stored (debited req src)
         (consumed (logged (Save (debited req src)) (after_second req w))).

Definition after_credit (req : request) (src dst : User) (w : world)
  : world :=
  stored (credited req dst)
         (consumed (logged (Save (credited req dst)) (after_debit req src w))).

Definition rejected (code : Z) (m : string) : response :=
  mkResponse code (Message m).

Definition failed (e : error) : response :=
  mkResponse 500 (MessageError "An error occurred during the transfer" e).

Definition succeeded (req : request) (src dst : User) : response :=
  mkResponse 200
    (Transferred
       ("Transferred $" +:+ Number_toString (number_of (amount req))
          +:+ " from " +:+ name src +:+ " to " +:+ name dst)
       (balance (debited req src)) (balance (credited req dst))).

Section Path.
Variable castObjectId : value -> option ObjectId.

Inductive path (req : request) (w : world) : response -> world -> Prop :=
| path_missing :
    missing req = true ->
    path req w (rejected 400 "Missing fromUserId, toUserId, or amount") w
| path_invalid :
    missing req = false -> invalid req = true ->
    path req w (rejected 400 "Invalid transfer amount") w
| path_self :
    missing req = false -> invalid req = false ->
    strict_equals (fromUserId req) (toUserId req) = true ->
    path req w (rejected 400 "Cannot transfer to the same account") w
| path_cast_source :
    validated req ->
    castObjectId (fromUserId req) = None ->
    path req w (failed (CastError (fromUserId req)))
         (logged (FindById (fromUserId req)) w)
| path_fault_source i m :
    validated req ->
    castObjectId (fromUserId req) = Some i ->
    reply w = Some m ->
    path req w (failed (DriverError m)) (after_first req w)
| path_cast_destination i :
    validated req ->
    castObjectId (fromUserId req) = Some i ->
    reply w = None ->
    castObjectId (toUserId req) = None ->
    path req w (failed (CastError (toUserId req)))
         (logged (FindById (toUserId req)) (after_first req w))
| path_fault_destination i j m :
    validated req ->
    castObjectId (fromUserId req) = Some i ->
    reply w = None ->
    castObjectId (toUserId req) = Some j ->
    reply (after_first req w) = Some m ->
    path req w (failed (DriverError m)) (after_second req w)
| path_no_sender i j :
    validated req ->
    castObjectId (fromUserId req) = Some i ->
    castObjectId (toUserId req) = Some j ->
    reply w = None -> reply (after_first req w) = None ->
    users w !! i = None ->
    path req w (rejected 404 "Sender account not found") (after_second req w)
| path_no_receiver i j src :
    validated req ->
    castObjectId (fromUserId req) = Some i ->
    castObjectId (toUserId req) = Some j ->
    reply w = None -> reply (after_first req w) = None ->
    users w !! i = Some src ->
    users w !! j = None ->
    path req w (rejected 404 "Receiver account not found")
         (after_second req w)
| path_insufficient i j src dst :
    validated req ->
    castObjectId (fromUserId req) = Some i ->
    castObjectId (toUserId req) = Some j ->
    reply w = None -> reply (after_first req w) = None ->
    users w !! i = Some src ->
    users w !! j = Some dst ->
    lt (balance src) (number_of (amount req)) = true ->
    path req w (rejected 400 "Insufficient balance") (after_second req w)
| path_invalid_debit i j src dst p ps :
    validated req ->
    castObjectId (fromUserId req) = Some i ->
    castObjectId (toUserId req) = Some j ->
    reply w = None -> reply (after_first req w) = None ->
    users w !! i = Some src ->
    users w !! j = Some dst ->
    lt (balance src) (number_of (amount req)) = false ->
    invalid_paths (name src) (balance (debited req src)) = p :: ps ->
    path req w (failed (ValidationError (p :: ps)))
         (logged (Save (debited req src)) (after_second req w))
| path_fault_debit i j src dst m :
    validated req ->
    castObjectId (fromUserId req) = Some i ->
    castObjectId (toUserId req) = Some j ->
    reply w = None -> reply (after_first req w) = None ->
    users w !! i = Some src ->
    users w !! j = Some dst ->
    lt (balance src) (number_of (amount req)) = false ->
    invalid_paths (name src) (balance (debited req src)) = [] ->
    reply (after_second req w) = Some m ->
    path req w (failed (DriverError m))
         (consumed (logged (Save (debited req src)) (after_second req w)))
| path_invalid_credit i j src dst p ps :
    validated req ->
    castObjectId (fromUserId req) = Some i ->
    castObjectId (toUserId req) = Some j ->
    reply w = None -> reply (after_first req w) = None ->
    users w !! i = Some src ->
    users w !! j = Some dst ->
    lt (balance src) (number_of (amount req)) = false ->
    invalid_paths (name src) (balance (debited req src)) = [] ->
    reply (after_second req w) = None ->
    invalid_paths (name dst) (balance (credited req dst)) = p :: ps ->
    path req w (failed (ValidationError (p :: ps)))
         (logged (Save (credited req dst)) (after_debit req src w))
| path_fault_credit i j src dst m :
    validated req ->
    castObjectId (fromUserId req) = Some i ->
    castObjectId (toUserId req) = Some j ->
    reply w = None -> reply (after_first req w) = None ->
    users w !! i = Some src ->
    users w !! j = Some dst ->
    lt (balance src) (number_of (amount req)) = false ->
    invalid_paths (name src) (balance (debited req src)) = [] ->
    reply (after_second req w) = None ->
    invalid_paths (name dst) (balance (credited req dst)) = [] ->
    reply (after_debit req src w) = Some m ->
    path req w (failed (DriverError m))
         (consumed (logged (Save (credited req dst)) (after_debit req src w)))
| path_done i j src dst :
    validated req ->
    castObjectId (fromUserId req) = Some i ->
    castObjectId (toUserId req) = Some j ->
    reply w = None -> reply (after_first req w) = None ->
    users w !! i = Some src ->
    users w !! j = Some dst ->
    lt (balance src) (number_of (amount req)) = false ->
    invalid_paths (name src) (balance (debited req src)) = [] ->
    reply (after_second req w) = None ->
    invalid_paths (name dst) (balance (credited req dst)) = [] ->
    reply (after_debit req src w) = None ->
    path req w (succeeded req src dst) (after_credit req src dst w).

End Path.

(** ** The outcomes of [POST /transfer], by what the store answered *)

Section Outcome.
Variable castObjectId : value -> option ObjectId.

(** Both lookups were answered, with [src] and with [dst], and left the
    world [w2]. *)
Definition looked_up (req : request) (w : world) (src dst : option User)
    (w2 : world) : Prop :=
  exists w1,
    findById castObjectId (fromUserId req) w = (Fulfilled src, w1) /\
    findById castObjectId (toUserId req) w1 = (Fulfilled dst, w2).

(** A store call of the transfer rejects with [e]: the first lookup, or
    the second after the first was answered, or the save of the source
    after both accounts were found and the balance sufficed, or the save
    of the destination after that of the source. *)
Definition thrown (req : request) (w : world) (e : error) : Prop :=
  (exists w1,
     findById castObjectId (fromUserId req) w = (Rejected e, w1)) \/
  (exists src w1 w2,
     findById castObjectId (fromUserId req) w = (Fulfilled src, w1) /\
     findById castObjectId (toUserId req) w1 = (Rejected e, w2)) \/
  (exists src dst w2,
     looked_up req w (Some src) (Some dst) w2 /\
     lt (balance src) (number_of (amount req)) = false /\
     ((exists w3, save (debited req src) w2 = (Rejected e, w3)) \/
      (exists w3 w4,
         save (debited req src) w2 = (Fulfilled tt, w3) /\
         save (credited req dst) w3 = (Rejected e, w4)))).

(** Outcome [k] arises for a request in a world, with [b] as the body of
    the answer: what the request and the store must be like, and what is
    sent. *)
Definition arises (req : request) (w : world) (k : kind) (b : json) : Prop :=
  match k with
  | MissingField =>
      missing req = true /\
      b = Message "Missing fromUserId, toUserId, or amount"
  | InvalidAmount =>
      missing req = false /\ invalid req = true /\
      b = Message "Invalid transfer amount"
  | SelfTransfer =>
      missing req = false /\ invalid req = false /\
      strict_equals (fromUserId req) (toUserId req) = true /\
      b = Message "Cannot transfer to the same account"
  | SourceNotFound =>
      validated req /\
      (exists dst w2, looked_up req w None dst w2) /\
      b = Message "Sender account not found"
  | DestinationNotFound =>
      validated req /\
      (exists src w2, looked_up req w (Some src) None w2) /\
      b = Message "Receiver account not found"
  | InsufficientFunds =>
      validated req /\
      (exists src dst w2,
         looked_up req w (Some src) (Some dst) w2 /\
         lt (balance src) (number_of (amount req)) = true) /\
      b = Message "Insufficient balance"
  | OperationalFailure =>
      validated req /\
      exists e,
        thrown req w e /\
        b = MessageError "An error occurred during the transfer" e
  | Success =>
      validated req /\
      exists src dst w2 w3 w4,
        looked_up req w (Some src) (Some dst) w2 /\
        lt (balance src) (number_of (amount req)) = false /\
        save (debited req src) w2 = (Fulfilled tt, w3) /\
        save (credited req dst) w3 = (Fulfilled tt, w4) /\
        b = Transferred
              ("Transferred $" +:+ Number_toString (number_of (amount req))
                 +:+ " from " +:+ name src +:+ " to " +:+ name dst)
              (sub (balance src) (number_of (amount req)))
              (add (balance dst) (number_of (amount req)))
  end.

End Outcome.

(** Every stored document sits under its own [_id]. *)
Definition keyed (m : gmap ObjectId User) : Prop :=
  map_Forall (fun i u => _id u = i) m.

(** Every stored document is well formed. *)
Definition all_well_formed (m : gmap ObjectId User) : Prop :=
  map_Forall (fun _ u => well_formed u = true) m.

(** The calls of a transfer that found [src] and [dst], in the order the
    handler makes them. *)
Definition store_calls (req : request) (src dst : User) : list call :=
  [FindById (fromUserId req); FindById (toUserId req);
   Save (debited req src); Save (credited req dst)].

Definition is_save (c : call) : bool :=
  match c with Save _ => true | _ => false end.

End Paths.

(** * Properties *)

Import JSNumber NumberToString JSValue Mongoose Routes Ledger Deployment.
Import Paths.

(** ** Store calls, equationally *)

Lemma round_trip_eq w :
  round_trip w =
  (match reply w with
   | Some m => Rejected (DriverError m)
   | None => Fulfilled tt
   end, consumed w).
Proof.
  destruct w as [u f i c]. unfold round_trip, reply, consumed; simpl.
  by destruct f as [|[m|] rest].
Qed.

Lemma answers_S n w :
  answers (S n) w = true -> reply w = None /\ answers n (consumed w) = true.
Proof.
  unfold answers, reply, consumed; simpl.
  destruct (faults w) as [|[m|] rest]; simpl; try done.
  by destruct n.
Qed.

Lemma reply_logged c w : reply (logged c w) = reply w.
Proof. done. Qed.

Lemma reply_in_faults w m : reply w = Some m -> Some m ∈ faults w.
Proof.
  unfold reply. destruct (faults w) as [|[m'|] rest]; try done.
  intros [= ->]. apply list_elem_of_here.
Qed.

Ltac case_reply R :=
  match goal with
  | |- context [reply ?w] => destruct (reply w) eqn:R
  end.

Lemma elem_of_tail {A : Type} (x : A) (l : list A) : x ∈ tail l -> x ∈ l.
Proof. destruct l; [done|]. simpl. apply list_elem_of_further. Qed.

Lemma save_eq doc w :
  save doc w =
  match invalid_paths (name doc) (balance doc) with
  | [] =>
      match reply w with
      | Some m => (Rejected (DriverError m), consumed (logged (Save doc) w))
      | None => (Fulfilled tt, stored doc (consumed (logged (Save doc) w)))
      end
  | p :: ps => (Rejected (ValidationError (p :: ps)), logged (Save doc) w)
  end.
Proof.
  unfold save, bind, record_call, validate.
  destruct (invalid_paths (name doc) (balance doc)); [|done].
  unfold resolve. rewrite round_trip_eq, reply_logged.
  by destruct (reply w).
Qed.

Lemma save_fulfilled doc w w' :
  save doc w = (Fulfilled tt, w') ->
  users w' = <[_id doc := doc]> (users w) /\ calls w' = calls w ++ [Save doc].
Proof.
  rewrite save_eq.
  destruct (invalid_paths _ _); [|done].
  destruct (reply w); [done|]. by intros [= <-].
Qed.

Lemma save_rejected doc w e w' :
  save doc w = (Rejected e, w') ->
  users w' = users w /\ calls w' = calls w ++ [Save doc].
Proof.
  rewrite save_eq.
  destruct (invalid_paths _ _).
  - destruct (reply w); [|done]. by intros [= <- <-].
  - by intros [= <- <-].
Qed.

Lemma save_answered n doc w :
  answers (S n) w = true ->
  invalid_paths (name doc) (balance doc) = [] ->
  save doc w = (Fulfilled tt, stored doc (consumed (logged (Save doc) w))) /\
  answers n (stored doc (consumed (logged (Save doc) w))) = true.
Proof.
  intros Hw Hv. rewrite save_eq, Hv.
  apply answers_S in Hw as [-> Hw]. done.
Qed.

Lemma deleteMany_eq w :
  deleteMany w =
  match reply w with
  | Some m => (Rejected (DriverError m), consumed (logged DeleteMany w))
  | None =>
      (Fulfilled tt,
       mkWorld ∅ (tail (faults w)) (next_id w) (calls w ++ [DeleteMany]))
  end.
Proof.
  unfold deleteMany, bind, record_call.
  rewrite round_trip_eq, reply_logged. by destruct (reply w).
Qed.

Lemma insertMany_usersData_eq w :
  insertMany usersData w =
  match reply w with
  | Some m =>
      (Rejected (DriverError m), consumed (logged (InsertMany usersData) w))
  | None =>
      let alice := mkUser (next_id w) "Alice" (of_Z 1000) in
      let bob := mkUser (N.succ (next_id w)) "Bob" (of_Z 500) in
      (Fulfilled [alice; bob],
       mkWorld (<[_id bob := bob]> (<[_id alice := alice]> (users w)))
               (tail (faults w)) (next_id w + 2)%N
               (calls w ++ [InsertMany usersData]))
  end.
Proof.
  unfold insertMany, bind, record_call.
  change (validate_all usersData (logged (InsertMany usersData) w))
    with (Fulfilled tt, logged (InsertMany usersData) w).
  cbv iota beta. rewrite round_trip_eq, reply_logged. by destruct (reply w).
Qed.

Lemma two_inserted (i : ObjectId) (a b : User) :
  size (<[N.succ i := b]> (<[i := a]> (∅ : gmap ObjectId User))) = 2%nat.
Proof.
  rewrite map_size_insert_None.
  - by rewrite map_size_insert_None, map_size_empty.
  - rewrite lookup_insert_ne; [done|lia].
Qed.

Section Lookups.
Variable castObjectId : value -> option ObjectId.

Lemma findById_eq v w :
  findById castObjectId v w =
  match castObjectId v with
  | None => (Rejected (CastError v), logged (FindById v) w)
  | Some oid =>
      (match reply w with
       | Some m => Rejected (DriverError m)
       | None => Fulfilled (users w !! oid)
       end, consumed (logged (FindById v) w))
  end.
Proof.
  unfold findById, bind, record_call, reject.
  destruct (castObjectId v) as [oid|]; [|done].
  rewrite round_trip_eq, reply_logged. by destruct (reply w).
Qed.

Lemma findById_users v w : users (snd (findById castObjectId v w)) = users w.
Proof. rewrite findById_eq. by destruct (castObjectId v). Qed.

Lemma findById_calls v w :
  calls (snd (findById castObjectId v w)) = calls w ++ [FindById v].
Proof. rewrite findById_eq. by destruct (castObjectId v). Qed.

Lemma findById_answered n v oid w :
  answers (S n) w = true ->
  castObjectId v = Some oid ->
  findById castObjectId v w =
    (Fulfilled (users w !! oid), consumed (logged (FindById v) w)) /\
  answers n (consumed (logged (FindById v) w)) = true.
Proof.
  intros Hw Hc. rewrite findById_eq, Hc.
  apply answers_S in Hw as [-> Hw]. done.
Qed.

End Lookups.

Section Answered.
Variable castObjectId : value -> option ObjectId.

(** What each store call of a transfer leaves behind. *)
Lemma findById_fulfilled v w o w' :
  findById castObjectId v w = (Fulfilled o, w') ->
  users w' = users w /\ calls w' = calls w ++ [FindById v].
Proof.
  intros H. pose proof (findById_users castObjectId v w) as U.
  pose proof (findById_calls castObjectId v w) as C.
  by rewrite H in U, C.
Qed.

Lemma findById_rejected v w e w' :
  findById castObjectId v w = (Rejected e, w') ->
  users w' = users w /\ calls w' = calls w ++ [FindById v].
Proof.
  intros H. pose proof (findById_users castObjectId v w) as U.
  pose proof (findById_calls castObjectId v w) as C.
  by rewrite H in U, C.
Qed.

End Answered.

Ltac facts :=
  repeat match goal with
  | H : findById _ _ _ = (Fulfilled _, _) |- _ =>
      apply findById_fulfilled in H as [? ?]
  | H : findById _ _ _ = (Rejected _, _) |- _ =>
      apply findById_rejected in H as [? ?]
  | H : save _ _ = (Fulfilled _, _) |- _ => apply save_fulfilled in H as [? ?]
  | H : save _ _ = (Rejected _, _) |- _ => apply save_rejected in H as [? ?]
  end.

Ltac chain :=
  repeat match goal with
  | H : calls ?x = _ |- context [calls ?x] => rewrite H; clear H
  | H : users ?x = _ |- context [users ?x] => rewrite H; clear H
  end;
  rewrite <- ?app_assoc.

(** ** Signs of rounded sums and differences *)

Section Rounding.

Lemma shr_1_nonneg mrs : 0 <= shr_m mrs -> 0 <= shr_m (shr_1 mrs).
Proof.
  destruct mrs as [m r s]. simpl.
  destruct m as [|[p|p|]|[p|p|]]; simpl; lia.
Qed.

Lemma iter_shr_1_nonneg p :
  forall mrs, 0 <= shr_m mrs -> 0 <= shr_m (SpecFloat.iter_pos shr_1 p mrs).
Proof.
  induction p as [p IH|p IH|]; intros mrs H; simpl.
  - apply IH, IH. by apply shr_1_nonneg.
  - by apply IH, IH.
  - by apply shr_1_nonneg.
Qed.

Lemma shr_fexp_nonneg m e l :
  0 <= m -> 0 <= shr_m (fst (shr_fexp prec emax m e l)).
Proof.
  intros H. unfold shr_fexp, shr.
  assert (0 <= shr_m (shr_record_of_loc m l)) as H'
    by (by destruct l as [|[]]).
  destruct (_ - e); simpl; try done. by apply iter_shr_1_nonneg.
Qed.

Lemma round_nearest_even_nonneg m l :
  0 <= m -> 0 <= round_nearest_even m l.
Proof.
  intros H. destruct l as [|[]]; simpl; try lia.
  destruct (Z.even m); lia.
Qed.

Lemma binary_round_aux_nonneg m e l :
  0 <= m -> le pos_zero (binary_round_aux prec emax false m e l) = true.
Proof.
  intros H. unfold binary_round_aux.
  pose proof (shr_fexp_nonneg m e l H) as H1.
  destruct (shr_fexp prec emax m e l) as [mrs' e']. simpl in H1.
  pose proof (shr_fexp_nonneg _ e' loc_Exact
                (round_nearest_even_nonneg _ (loc_of_shr_record mrs') H1)) as H2.
  destruct (shr_fexp prec emax _ e' loc_Exact) as [mrs'' e'']. simpl in H2.
  destruct (shr_m mrs''); [done| |lia].
  by destruct (_ <=? _).
Qed.

Lemma binary_normalize_nonneg m e :
  0 <= m -> le pos_zero (binary_normalize prec emax m e false) = true.
Proof.
  intros H. destruct m as [|p|p]; [done| |lia]. simpl.
  unfold binary_round. destruct (shl_align _ _ _).
  by apply binary_round_aux_nonneg.
Qed.

(** Crediting a positive amount to a non-negative balance. *)
Lemma add_non_negative d a :
  le pos_zero d = true -> lt pos_zero a = true -> le pos_zero (add d a) = true.
Proof.
  destruct d as [sd|[]| |[] md ed], a as [sa|[]| |[] ma ea]; try done.
  intros _ _. unfold add, SFadd. by apply binary_normalize_nonneg.
Qed.

Lemma digits2_pos_bounds m :
  2 ^ (Z.pos (digits2_pos m) - 1) <= Z.pos m < 2 ^ Z.pos (digits2_pos m).
Proof.
  induction m as [m IH|m IH|]; simpl; [| |lia].
  - rewrite Pos2Z.inj_succ.
    replace (Z.succ (Z.pos (digits2_pos m)) - 1)
      with (Z.succ (Z.pos (digits2_pos m) - 1)) by lia.
    rewrite !Z.pow_succ_r by lia. lia.
  - rewrite Pos2Z.inj_succ.
    replace (Z.succ (Z.pos (digits2_pos m)) - 1)
      with (Z.succ (Z.pos (digits2_pos m) - 1)) by lia.
    rewrite !Z.pow_succ_r by lia. lia.
Qed.

Lemma iter_xO_pow m d : Z.pos (Pos.iter xO m d) = Z.pos m * 2 ^ Z.pos d.
Proof.
  induction d as [|d IH] using Pos.peano_ind.
  - simpl. lia.
  - rewrite Pos.iter_succ, Pos2Z.inj_succ, Z.pow_succ_r by lia.
    rewrite Pos2Z.inj_xO, IH. lia.
Qed.

(** A canonical binary64 has at most 53 digits, exactly 53 above the
    least exponent, and no exponent below it. *)
Lemma valid_finite s m e :
  valid (S754_finite s m e) = true ->
  emin prec emax <= e /\
  Z.pos (digits2_pos m) <= prec /\
  (emin prec emax < e -> Z.pos (digits2_pos m) = prec).
Proof.
  unfold valid, valid_binary, bounded, canonical_mantissa, fexp.
  intros H. apply andb_prop in H as [H _]. apply Z.eqb_eq in H. lia.
Qed.

Lemma le_finite_aligned ma ea mb eb :
  valid (S754_finite false ma ea) = true ->
  valid (S754_finite false mb eb) = true ->
  le (S754_finite false ma ea) (S754_finite false mb eb) = true ->
  Z.pos (fst (shl_align ma ea (Z.min eb ea))) <=
  Z.pos (fst (shl_align mb eb (Z.min eb ea))).
Proof.
  intros Va Vb. unfold le, SFleb, SFcompare, shl_align.
  destruct (Z.compare_spec ea eb) as [->|Hlt|Hgt]; [| |done].
  - rewrite Z.min_id, Z.sub_diag. simpl. intros H.
    rewrite Pos.compare_cont_spec in H. simpl in H.
    destruct (Pos.compare_spec ma mb); try done; lia.
  - intros _. rewrite Z.min_r by lia. rewrite Z.sub_diag.
    destruct (ea - eb) as [|d|d] eqn:Hd; try lia. simpl.
    rewrite iter_xO_pow.
    apply valid_finite in Va as (Ha1 & Ha2 & _).
    apply valid_finite in Vb as (_ & _ & Hb3).
    pose proof (digits2_pos_bounds ma) as [_ Hma].
    pose proof (digits2_pos_bounds mb) as [Hmb _].
    rewrite Hb3 in Hmb by lia.
    assert (2 ^ Z.pos (digits2_pos ma) <= 2 ^ prec)
      by (apply Z.pow_le_mono_r; lia).
    assert (2 ^ 1 <= 2 ^ Z.pos d) by (apply Z.pow_le_mono_r; lia).
    change (2 ^ 1) with 2 in *.
    replace (2 ^ prec) with (2 ^ (prec - 1) * 2) in * by done.
    nia.
Qed.

(** Debiting an amount that the balance covers. *)
Lemma sub_non_negative b a :
  valid a = true -> valid b = true ->
  is_finite a = true -> lt pos_zero a = true -> le a b = true ->
  le pos_zero (sub b a) = true.
Proof.
  destruct a as [sa|sa| |[] ma ea]; try done.
  destruct b as [sb|[]| |[] mb eb]; try done.
  intros Va Vb _ _ Hle. unfold sub, SFsub.
  apply binary_normalize_nonneg. simpl.
  pose proof (le_finite_aligned _ _ _ _ Va Vb Hle). lia.
Qed.

Lemma le_not_lt a b : le a b = true -> lt b a = false.
Proof.
  unfold le, lt, SFleb, SFltb.
  destruct a as [sa|[]| |[] ma ea], b as [sb|[]| |[] mb eb]; simpl; try done.
  - rewrite (Z.compare_antisym ea eb). destruct (ea ?= eb); simpl; try done.
    rewrite !Pos.compare_cont_spec. simpl.
    rewrite (Pos.compare_antisym ma mb). by destruct (ma ?= mb)%positive.
  - rewrite (Z.compare_antisym ea eb). destruct (ea ?= eb); simpl; try done.
    rewrite !Pos.compare_cont_spec. simpl.
    rewrite (Pos.compare_antisym ma mb). by destruct (ma ?= mb)%positive.
Qed.

Lemma not_lt_le b a :
  le pos_zero b = true -> lt pos_zero a = true -> lt b a = false ->
  le a b = true.
Proof.
  unfold le, lt, SFleb, SFltb.
  destruct a as [sa|[]| |[] ma ea], b as [sb|[]| |[] mb eb]; simpl; try done.
  intros _ _. rewrite (Z.compare_antisym ea eb).
  destruct (ea ?= eb); simpl; try done.
  rewrite !Pos.compare_cont_spec. simpl.
  rewrite (Pos.compare_antisym ma mb). by destruct (ma ?= mb)%positive.
Qed.

Lemma truthy_above_zero a :
  to_boolean a = true -> le a pos_zero = false -> lt pos_zero a = true.
Proof. by destruct a as [[]|[]| |[] m e]. Qed.

Lemma not_le_lt a b :
  le pos_zero b = true -> lt pos_zero a = true -> le a b = false ->
  lt b a = true.
Proof.
  unfold le, lt, SFleb, SFltb.
  destruct a as [sa|[]| |[] ma ea], b as [sb|[]| |[] mb eb]; simpl; try done.
  intros _ _. rewrite (Z.compare_antisym ea eb).
  destruct (ea ?= eb); simpl; try done.
  rewrite !Pos.compare_cont_spec. simpl.
  rewrite (Pos.compare_antisym ma mb). by destruct (ma ?= mb)%positive.
Qed.

Lemma positive_amount_accepted a :
  lt pos_zero a = true -> to_boolean a = true /\ le a pos_zero = false.
Proof. by destruct a as [[]|[]| |[] m e]. Qed.

End Rounding.

Lemma validated_non_negative n b :
  invalid_paths n b = [] -> le pos_zero b = true.
Proof.
  unfold invalid_paths. by destruct (le pos_zero b).
Qed.

Lemma well_formed_valid u :
  well_formed u = true ->
  valid (balance u) = true /\ String.eqb (name u) EmptyString = false /\
  le pos_zero (balance u) = true.
Proof.
  unfold well_formed, invalid_paths. intros H.
  apply andb_prop in H as [Hv H]. apply bool_decide_eq_true in H.
  split; [done|].
  destruct (le pos_zero (balance u)); [|done].
  by destruct (String.eqb (name u) EmptyString).
Qed.

Lemma exact_transfer_conserves b d a :
  exact_sub b a -> exact_add d a -> conserved b d (sub b a) (add d a).
Proof.
  unfold exact_sub, exact_add, conserved.
  destruct (to_Q b) as [qb|], (to_Q a) as [qa|]; try done.
  destruct (to_Q (sub b a)) as [q1|]; try done.
  destruct (to_Q d) as [qd|]; try done.
  destruct (to_Q (add d a)) as [q2|]; try done.
  intros -> ->. ring.
Qed.

(** ** Amounts as the message prints them *)

(** A whole amount, a fraction, a sum that rounded, the two switches to
    exponent form, and the two smallest doubles: the second one,
    [2 * 2^-1074], has the one-digit decimals [9e-324] and [1e-323] in
    its rounding interval, and is printed as the closer of the two. *)
Example amounts_as_printed :
  Number_toString (of_Z 150) = "150" /\
  Number_toString (of_ratio 1 10) = "0.1" /\
  Number_toString (add (of_ratio 1 10) (of_ratio 2 10))
    = "0.30000000000000004" /\
  Number_toString (of_ratio 1 1000000) = "0.000001" /\
  Number_toString (of_ratio 1 10000000) = "1e-7" /\
  Number_toString (of_Z (10 ^ 20)) = "100000000000000000000" /\
  Number_toString (of_Z (10 ^ 21)) = "1e+21" /\
  Number_toString (S754_finite false 1 (-1074)) = "5e-324" /\
  Number_toString (S754_finite false 2 (-1074)) = "1e-323".
Proof. repeat split; vm_compute; reflexivity. Qed.

(** ** The transfer that goes through *)

Section Success.
Variable castObjectId : value -> option ObjectId.

(** C1 (amended).  When both identifiers are present and distinct and
    resolve to stored accounts, the amount is a finite number above zero
    that the source balance covers, and the store answers all four calls,
    the transfer succeeds with status 200; the reported balances are the
    source balance minus the amount and the destination balance plus the
    amount, both in binary64 arithmetic, and these are what is written;
    the sum of the two balances is conserved whenever neither operation
    rounds; and the message is "Transferred $<amount> from <source name>
    to <destination name>", with a dollar sign before the amount. *)
Theorem transfer_succeeds (req : request) (w : world) (a : number)
    (i j : ObjectId) (src dst : User) :
  ToBoolean (fromUserId req) = true ->
  ToBoolean (toUserId req) = true ->
  amount req = VNumber a ->
  valid a = true ->
  is_finite a = true ->
  lt pos_zero a = true ->
  strict_equals (fromUserId req) (toUserId req) = false ->
  castObjectId (fromUserId req) = Some i ->
  castObjectId (toUserId req) = Some j ->
  users w !! i = Some src ->
  users w !! j = Some dst ->
  well_formed src = true ->
  well_formed dst = true ->
  answers 4 w = true ->
  le a (balance src) = true ->
  let debited := mkUser (_id src) (name src) (sub (balance src) a) in
  let credited := mkUser (_id dst) (name dst) (add (balance dst) a) in
  exists w',
    transfer castObjectId req w =
    (Fulfilled
       (mkResponse 200
          (Transferred
             ("Transferred $" +:+ Number_toString a +:+ " from "
                +:+ name src +:+ " to " +:+ name dst)
             (sub (balance src) a) (add (balance dst) a))), w') /\
    users w' = <[_id dst := credited]> (<[_id src := debited]> (users w)) /\
    calls w' = calls w ++ [FindById (fromUserId req); FindById (toUserId req);
                           Save debited; Save credited] /\
    (exact_sub (balance src) a -> exact_add (balance dst) a ->
     conserved (balance src) (balance dst)
               (sub (balance src) a) (add (balance dst) a)).
Proof.
  intros Hf Ht Ha Va Fa Pa He Hi Hj Hs Hd Ws Wd Hw Hle debited credited.
  apply well_formed_valid in Ws as (Vs & Ns & _).
  apply well_formed_valid in Wd as (_ & Nd & Pd).
  destruct (positive_amount_accepted a Pa) as [Ta Za].
  assert (invalid_paths (name debited) (balance debited) = []) as Id.
  { unfold invalid_paths. simpl. rewrite Ns.
    by rewrite (sub_non_negative _ _ Va Vs Fa Pa Hle). }
  assert (invalid_paths (name credited) (balance credited) = []) as Ic.
  { unfold invalid_paths. simpl. rewrite Nd.
    by rewrite (add_non_negative _ _ Pd Pa). }
  unfold transfer, not. rewrite Hf, Ht, Ha. simpl. rewrite Ta, Za, He. simpl.
  unfold try_catch, bind.
  destruct (findById_answered _ _ _ _ _ Hw Hi) as [-> Hw1].
  destruct (findById_answered _ _ _ _ _ Hw1 Hj) as [-> Hw2]. simpl.
  rewrite Hs, Hd, (le_not_lt _ _ Hle).
  fold debited. fold credited.
  destruct (save_answered _ _ _ Hw2 Id) as [-> Hw3].
  destruct (save_answered _ _ _ Hw3 Ic) as [-> _].
  eexists. split; [done|]. simpl. split; [done|]. split.
  - by rewrite <- !app_assoc.
  - apply exact_transfer_conserves.
Qed.

End Success.

(** Alice sends 150 to Bob on the seeded store: 850 and 650 remain, and
    the sum is conserved exactly. *)
Lemma transfer_succeeds_witness :
  exists w',
    transfer hex24 (send alice_id bob_id (of_Z 150)) (seeded []) =
    (Fulfilled
       (mkResponse 200
          (Transferred "Transferred $150 from Alice to Bob"
                       (of_Z 850) (of_Z 650))), w') /\
    users w' !! alice_oid = Some (mkUser alice_oid "Alice" (of_Z 850)) /\
    users w' !! bob_oid = Some (mkUser bob_oid "Bob" (of_Z 650)) /\
    conserved (of_Z 1000) (of_Z 500) (of_Z 850) (of_Z 650).
Proof.
  destruct (transfer_succeeds hex24 (send alice_id bob_id (of_Z 150))
              (seeded []) (of_Z 150) alice_oid bob_oid alice bob)
    as (w' & Hr & Hu & _ & Hc); try (vm_compute; reflexivity).
  exists w'. split; [exact Hr|]. rewrite Hu.
  split; [vm_compute; reflexivity|]. split; [vm_compute; reflexivity|].
  apply Hc; vm_compute; reflexivity.
Defined.

(** C1 as stated fails.  After Alice has sent 999.1 to Bob she sends him
    0.1: the message carries a dollar sign that the stated message lacks,
    and the two balances, 0.7999999999999773 and 1499.1999999999998, add
    up neither exactly nor in binary64 to what they added up to before. *)
Lemma stated_success_fails :
  fst (transfer hex24 (send alice_id bob_id (of_ratio 1 10)) drained) =
    Fulfilled
      (mkResponse 200
         (Transferred "Transferred $0.1 from Alice to Bob"
            (sub alice_left (of_ratio 1 10))
            (add bob_got (of_ratio 1 10)))) /\
  spec_message (of_ratio 1 10) "Alice" "Bob" =
    "Transferred 0.1 from Alice to Bob" /\
  users drained !! alice_oid = Some (mkUser alice_oid "Alice" alice_left) /\
  users drained !! bob_oid = Some (mkUser bob_oid "Bob" bob_got) /\
  lt pos_zero (of_ratio 1 10) = true /\
  le (of_ratio 1 10) alice_left = true /\
  ~ conserved alice_left bob_got
      (sub alice_left (of_ratio 1 10)) (add bob_got (of_ratio 1 10)) /\
  conserved_js alice_left bob_got
      (sub alice_left (of_ratio 1 10)) (add bob_got (of_ratio 1 10)) = false.
Proof.
  repeat split; try (vm_compute; reflexivity).
  intros H. vm_compute in H. discriminate H.
Qed.

(** ** Rejections *)

Lemma negative_is_truthy x :
  lt x pos_zero = true -> to_boolean x = true /\ le x pos_zero = true.
Proof. by destruct x as [[]|[]| |[] m e]. Qed.

Lemma two_calls (l : list call) (a b : call) :
  (l ++ [a]) ++ [b] = l ++ [a; b].
Proof. by rewrite <- app_assoc. Qed.

(** The tests of the handler against the words of the specification. *)

Lemma identifier_present v :
  identifier_or_absent v = true ->
  (present v /\ non_empty v) <-> ToBoolean v = true.
Proof.
  unfold present, non_empty.
  destruct v as [| | | |s| |]; try done; intros _; simpl.
  - split; [by intros [H _]|done].
  - destruct (String.eqb_spec s EmptyString) as [->|Hs]; simpl.
    + split; [by intros [_ H]|done].
    + split; [done|]. intros _. split; [done|]. by intros [= ->].
Qed.

Lemma amount_present v :
  truthy_or_absent v = true -> present v <-> ToBoolean v = true.
Proof.
  unfold present. destruct v; simpl; intros H; split; try done;
    intros _; congruence.
Qed.

Lemma positive_number_accepted v :
  ToBoolean v = true ->
  positive_number false v <->
  negb (is_number v) || le (number_of v) pos_zero = false.
Proof.
  intros Hv. split.
  - intros (a & -> & Ha & _). simpl.
    by destruct (positive_amount_accepted a Ha) as [_ ->].
  - intros H. apply orb_false_elim in H as [Hn Hl].
    destruct v as [| | |a| | |]; try done. simpl in *.
    exists a. split; [done|]. split; [by apply truthy_above_zero|done].
Qed.

Lemma identifiers_differ v v' :
  identifier_or_absent v = true -> identifier_or_absent v' = true ->
  ToBoolean v = true ->
  v <> v' <-> strict_equals v v' = false.
Proof.
  destruct v as [| | | |s| |], v' as [| | | |s'| |]; try done; intros _ _ _.
  simpl. destruct (String.eqb_spec s s') as [->|Hs]; split; try done.
  intros _ [= ->]. done.
Qed.

Section Rejections.
Variable castObjectId : value -> option ObjectId.

(** C2 (amended).  Take precondition 2 without the word finite, an
    identifier that is a string when it is carried, an amount that is
    truthy when it is carried, two identifiers that are spelled the same
    when they name the same account, and a store whose balances are
    non-negative.  Then the failure reported is that of the first
    precondition violated, in the order MissingField, InvalidAmount,
    SelfTransfer, SourceNotFound, DestinationNotFound, InsufficientFunds,
    provided that both lookups complete whenever the first three
    preconditions hold: both lookups run before either existence check.
    A validation failure leaves the world as it was; the other three
    failures follow the two lookups, and nothing is written. *)
Theorem first_violation_reported (req : request) (w : world) (k : kind) :
  identifier_or_absent (fromUserId req) = true ->
  identifier_or_absent (toUserId req) = true ->
  truthy_or_absent (amount req) = true ->
  one_spelling castObjectId req ->
  non_negative (users w) ->
  first_violated castObjectId false w req k ->
  (k = SourceNotFound \/ k = DestinationNotFound \/ k = InsufficientFunds ->
   lookups_complete castObjectId w req) ->
  exists r w',
    transfer castObjectId req w = (Fulfilled r, w') /\
    kind_of r = Some k /\
    status r = spec_status k /\
    users w' = users w /\
    match k with
    | MissingField | InvalidAmount | SelfTransfer => w' = w
    | _ => calls w' = calls w ++ [FindById (fromUserId req);
                                  FindById (toUserId req)]
    end.
Proof.
  intros If It Ia Os Nn (earlier & later & E & F & N) Hc.
  assert (precondition castObjectId false w req MissingField <->
          not (fromUserId req) || not (toUserId req) || not (amount req)
          = false) as P1.
  { simpl. rewrite (identifier_present _ If), (identifier_present _ It),
      (amount_present _ Ia). unfold not.
    destruct (ToBoolean (fromUserId req)), (ToBoolean (toUserId req)),
      (ToBoolean (amount req)); simpl; intuition congruence. }
  unfold checked_in_order in E. unfold transfer.
  destruct earlier as [|k1 earlier]; injection E as <- E.
  { rewrite P1 in N. apply not_false_is_true in N. rewrite N.
    subst later. by eauto 10. }
  apply Forall_cons in F as [F1 F]. apply P1 in F1. rewrite F1.
  apply orb_false_elim in F1 as [F1 Ta]. apply orb_false_elim in F1 as [Tf Tt].
  apply negb_false_iff in Tf, Tt, Ta.
  assert (precondition castObjectId false w req InvalidAmount <->
          negb (is_number (amount req))
          || le (number_of (amount req)) pos_zero = false) as P2
    by apply (positive_number_accepted _ Ta).
  destruct earlier as [|k2 earlier]; injection E as <- E.
  { rewrite P2 in N. apply not_false_is_true in N. rewrite N.
    by eauto 10. }
  apply Forall_cons in F as [F2 F]. pose proof F2 as (a & Ha & Pa & _).
  apply P2 in F2. rewrite F2.
  assert (precondition castObjectId false w req SelfTransfer <->
          strict_equals (fromUserId req) (toUserId req) = false) as P3.
  { rewrite <- (identifiers_differ _ _ If It Tf). simpl. split.
    - intros H1 H2. apply H1. by left.
    - intros H1 [H2|(i & Hi & Hj)]; [done|]. by apply H1, (Os i). }
  destruct earlier as [|k3 earlier]; injection E as <- E.
  { rewrite P3 in N. apply not_false_is_true in N. rewrite N.
    by eauto 10. }
  apply Forall_cons in F as [F3 F]. apply P3 in F3. rewrite F3.
  assert (lookups_complete castObjectId w req) as ([i Hi] & [j Hj] & Hw).
  { apply Hc.
    destruct earlier as [|k4 [|k5 [|k6 earlier]]]; simplify_eq/=; auto.
    by destruct earlier. }
  clear Hc P1 P2 P3. unfold precondition, resolves in *.
  rewrite Hi, Hj in *.
  unfold try_catch, bind.
  destruct (findById_answered _ _ _ _ _ Hw Hi) as [-> Hw1].
  destruct (findById_answered _ _ _ _ _ Hw1 Hj) as [-> _].
  cbn [users consumed logged].
  destruct earlier as [|k4 earlier]; injection E as <- E.
  { destruct (users w !! i) as [src|] eqn:Hs;
      [destruct N; by eexists|].
    do 2 eexists; split; [reflexivity|]; simpl.
    rewrite two_calls; by eauto 10. }
  apply Forall_cons in F as [[src Hs] F]. rewrite Hs in *.
  destruct earlier as [|k5 earlier]; injection E as <- E.
  { destruct (users w !! j) as [dst|] eqn:Hd;
      [destruct N; by eexists|].
    do 2 eexists; split; [reflexivity|]; simpl.
    rewrite two_calls; by eauto 10. }
  apply Forall_cons in F as [[dst Hd] F]. rewrite Hd in *.
  destruct earlier as [|k6 earlier]; injection E as <- E;
    [|by destruct earlier].
  rewrite Ha in *. simpl in N |- *.
  assert (lt (balance src) a = true) as ->.
  { apply not_le_lt; [by apply (Nn i)|done|].
    destruct (le a (balance src)) eqn:Hle; [|done].
    destruct N. by intros ? [= <-]. }
  do 2 eexists; split; [reflexivity|]; simpl.
  rewrite two_calls; by eauto 10.
Qed.

(** C3 (amended).  With both identifiers present, an amount that is a
    truthy value other than a number, or a number below zero (negative
    infinity included), is rejected as InvalidAmount, and the store is
    neither read nor written: the world is unchanged. *)
Theorem invalid_amount_rejected (req : request) (w : world) :
  ToBoolean (fromUserId req) = true ->
  ToBoolean (toUserId req) = true ->
  (is_number (amount req) = false /\ ToBoolean (amount req) = true) \/
  (is_number (amount req) = true /\
   lt (number_of (amount req)) pos_zero = true) ->
  transfer castObjectId req w =
  (Fulfilled (mkResponse 400 (Message "Invalid transfer amount")), w).
Proof.
  intros Hf Ht Ha. unfold transfer, not. rewrite Hf, Ht.
  destruct Ha as [[Hn Ha]|[Hn Hl]].
  - by rewrite Ha, Hn.
  - destruct (amount req) as [| | |x| | |]; try done.
    destruct (negative_is_truthy x Hl) as [Hb Hle]. simpl in *.
    by rewrite Hb, Hle.
Qed.

(** C4.  With present, distinct identifiers whose lookups return both
    accounts and an amount that passes validation, a source balance
    strictly below the amount is rejected as InsufficientFunds: the two
    lookups are the only store calls, and no account changes. *)
Theorem insufficient_funds_rejected (req : request) (w : world)
    (i j : ObjectId) (src dst : User) :
  ToBoolean (fromUserId req) = true ->
  ToBoolean (toUserId req) = true ->
  ToBoolean (amount req) = true ->
  is_number (amount req) = true ->
  le (number_of (amount req)) pos_zero = false ->
  strict_equals (fromUserId req) (toUserId req) = false ->
  castObjectId (fromUserId req) = Some i ->
  castObjectId (toUserId req) = Some j ->
  users w !! i = Some src ->
  users w !! j = Some dst ->
  answers 2 w = true ->
  lt (balance src) (number_of (amount req)) = true ->
  exists w',
    transfer castObjectId req w =
    (Fulfilled (mkResponse 400 (Message "Insufficient balance")), w') /\
    users w' = users w /\
    calls w' = calls w ++ [FindById (fromUserId req); FindById (toUserId req)].
Proof.
  intros Hf Ht Ha Hn Hp He Hi Hj Hs Hd Hw Hl. unfold transfer, not.
  rewrite Hf, Ht, Ha, Hn, Hp, He. simpl.
  unfold try_catch, bind.
  destruct (findById_answered _ _ _ _ _ Hw Hi) as [-> Hw1].
  destruct (findById_answered _ _ _ _ _ Hw1 Hj) as [-> _]. simpl.
  rewrite Hs, Hd, Hl. eexists; split; [done|]. simpl.
  by rewrite two_calls.
Qed.

(** The guard against a self-transfer compares the two identifiers as
    they were sent.  With both identifiers present, an amount that passes
    validation, and [fromUserId === toUserId], the transfer is rejected
    as SelfTransfer whatever the store holds, and the store is not
    called: the world is unchanged. *)
Theorem self_transfer_rejected (req : request) (w : world) :
  ToBoolean (fromUserId req) = true ->
  ToBoolean (toUserId req) = true ->
  ToBoolean (amount req) = true ->
  is_number (amount req) = true ->
  le (number_of (amount req)) pos_zero = false ->
  strict_equals (fromUserId req) (toUserId req) = true ->
  transfer castObjectId req w =
  (Fulfilled (mkResponse 400 (Message "Cannot transfer to the same account")),
   w).
Proof.
  intros Hf Ht Ha Hn Hp He. unfold transfer, not.
  by rewrite Hf, Ht, Ha, Hn, Hp, He.
Qed.

(** C8 (amended).  When the first lookup that fails does so because its
    identifier does not cast to an [ObjectId], the handler does not
    crash and does not answer not-found: it answers 500 with the cast
    error attached, and writes nothing. *)
Theorem malformed_identifier_reported (req : request) (w : world) :
  ToBoolean (fromUserId req) = true ->
  ToBoolean (toUserId req) = true ->
  ToBoolean (amount req) = true ->
  is_number (amount req) = true ->
  le (number_of (amount req)) pos_zero = false ->
  strict_equals (fromUserId req) (toUserId req) = false ->
  castObjectId (fromUserId req) = None \/
  (is_Some (castObjectId (fromUserId req)) /\ answers 1 w = true /\
   castObjectId (toUserId req) = None) ->
  exists v w',
    transfer castObjectId req w =
    (Fulfilled
       (mkResponse 500
          (MessageError "An error occurred during the transfer"
                        (CastError v))), w') /\
    castObjectId v = None /\
    users w' = users w /\
    (calls w' = calls w ++ [FindById (fromUserId req)] \/
     calls w' = calls w ++ [FindById (fromUserId req);
                            FindById (toUserId req)]).
Proof.
  intros Hf Ht Ha Hn Hp He Hm. unfold transfer, not.
  rewrite Hf, Ht, Ha, Hn, Hp, He. simpl.
  unfold try_catch, bind. rewrite findById_eq.
  destruct Hm as [Hi|([i Hi] & Hw & Hj)]; rewrite Hi.
  - exists (fromUserId req). by eauto 10.
  - apply answers_S in Hw as [-> _]. rewrite findById_eq, Hj.
    exists (toUserId req). eexists. repeat split; [done|].
    right. simpl. by rewrite two_calls.
Qed.

End Rejections.

Lemma seeded_non_negative : non_negative (users (seeded [])).
Proof.
  unfold non_negative. apply (bool_decide_unpack _). vm_compute. exact I.
Qed.

(** On the seeded store, a transfer from an identifier that resolves to
    no account is reported as SourceNotFound. *)
Lemma first_violation_reported_witness :
  exists r w',
    transfer hex24 (send nobody_id bob_id (of_Z 10)) (seeded []) =
      (Fulfilled r, w') /\
    kind_of r = Some SourceNotFound /\
    status r = 404 /\
    users w' = users (seeded []) /\
    calls w' = calls (seeded []) ++ [FindById nobody_id; FindById bob_id].
Proof.
  apply (first_violation_reported hex24 (send nobody_id bob_id (of_Z 10))
           (seeded []) SourceNotFound).
  - reflexivity.
  - reflexivity.
  - reflexivity.
  - intros i Hi Hj. vm_compute in Hi, Hj. rewrite <- Hi in Hj.
    discriminate Hj.
  - exact seeded_non_negative.
  - exists [MissingField; InvalidAmount; SelfTransfer],
           [DestinationNotFound; InsufficientFunds].
    split; [reflexivity|]. split.
    + repeat constructor; try discriminate.
      * exists (of_Z 10).
        split; [reflexivity|]. split; [reflexivity|discriminate].
      * intros [H|(i & Hi & Hj)]; [discriminate H|].
        vm_compute in Hi, Hj. rewrite <- Hi in Hj. discriminate Hj.
    + intros [u Hu]. vm_compute in Hu. discriminate Hu.
  - intros _. split; [|split].
    + eexists. vm_compute; reflexivity.
    + eexists. vm_compute; reflexivity.
    + reflexivity.
Defined.

(** C2 as stated fails, twice over.  With a source identifier that
    resolves to no account and a destination identifier that does not
    cast, SourceNotFound is the first precondition violated; the
    destination lookup throws, and the handler answers 500 instead of
    404.  With an amount of [Infinity], which JSON writes [1e999],
    InvalidAmount is the first precondition violated; the handler looks
    both accounts up and answers InsufficientFunds. *)
Lemma source_not_found_preempted :
  first_violated hex24 true (seeded [])
    (send nobody_id (VString "zz") (of_Z 10)) SourceNotFound /\
  fst (transfer hex24 (send nobody_id (VString "zz") (of_Z 10)) (seeded [])) =
    Fulfilled
      (mkResponse 500
         (MessageError "An error occurred during the transfer"
                       (CastError (VString "zz")))) /\
  kind_of
    (mkResponse 500
       (MessageError "An error occurred during the transfer"
                     (CastError (VString "zz")))) = Some OperationalFailure /\
  first_violated hex24 true (seeded [])
    (send alice_id bob_id pos_infinity) InvalidAmount /\
  fst (transfer hex24 (send alice_id bob_id pos_infinity) (seeded [])) =
    Fulfilled (mkResponse 400 (Message "Insufficient balance")).
Proof.
  split; [|split; [reflexivity|split; [reflexivity|split; [|reflexivity]]]].
  - exists [MissingField; InvalidAmount; SelfTransfer],
           [DestinationNotFound; InsufficientFunds].
    split; [reflexivity|]. split.
    + repeat constructor; try discriminate.
      * exists (of_Z 10). repeat split; reflexivity.
      * intros [H|(i & Hi & Hj)]; [discriminate H|discriminate Hj].
    + intros [u Hu]. vm_compute in Hu. discriminate Hu.
  - exists [MissingField],
           [SelfTransfer; SourceNotFound; DestinationNotFound;
            InsufficientFunds].
    split; [reflexivity|]. split.
    + repeat constructor; discriminate.
    + intros (a & Ha & _ & Fa). injection Ha as <-.
      specialize (Fa eq_refl). discriminate Fa.
Qed.

(** A negative amount, negative infinity, and an amount that is a
    string. *)
Lemma invalid_amount_rejected_witness :
  transfer hex24 (send alice_id bob_id (of_Z (-5))) (seeded []) =
    (Fulfilled (mkResponse 400 (Message "Invalid transfer amount")),
     seeded []) /\
  transfer hex24 (send alice_id bob_id neg_infinity) (seeded []) =
    (Fulfilled (mkResponse 400 (Message "Invalid transfer amount")),
     seeded []) /\
  transfer hex24 (mkRequest alice_id bob_id (VString "150")) (seeded []) =
    (Fulfilled (mkResponse 400 (Message "Invalid transfer amount")),
     seeded []).
Proof.
  split; [|split].
  - apply (invalid_amount_rejected hex24); [reflexivity|reflexivity|].
    right. split; reflexivity.
  - apply (invalid_amount_rejected hex24); [reflexivity|reflexivity|].
    right. split; reflexivity.
  - apply (invalid_amount_rejected hex24); [reflexivity|reflexivity|].
    left. split; reflexivity.
Defined.

(** C3 as stated fails.  [1e999] is valid JSON and decodes to
    [Infinity], a number that is not finite; it passes the amount check,
    both accounts are looked up, and the rejection is InsufficientFunds. *)
Lemma infinite_amount_passes_validation :
  ToBoolean alice_id = true /\
  ToBoolean bob_id = true /\
  ToBoolean (VNumber pos_infinity) = true /\
  is_finite pos_infinity = false /\
  fst (transfer hex24 (send alice_id bob_id pos_infinity) (seeded [])) =
    Fulfilled (mkResponse 400 (Message "Insufficient balance")) /\
  calls (snd (transfer hex24 (send alice_id bob_id pos_infinity) (seeded [])))
    = [FindById alice_id; FindById bob_id].
Proof. repeat split; vm_compute; reflexivity. Qed.

(** An amount of zero is falsy: the handler reports it as missing. *)
Example zero_amount_reported_missing :
  transfer hex24 (send alice_id bob_id (of_Z 0)) (seeded []) =
  (Fulfilled (mkResponse 400
                (Message "Missing fromUserId, toUserId, or amount")),
   seeded []).
Proof. reflexivity. Qed.

(** C6.  The guard misses a transfer from an account to itself whose
    identifier is spelled in two ways.  The two spellings below cast to
    the same [ObjectId], Alice's, but are not [===]: the transfer is not
    rejected as SelfTransfer.  The store is read twice and written twice,
    the handler answers 200, and the second save writes her balance plus
    the amount over the first: Alice, who held 1000, holds 1150. *)
Lemma self_transfer_under_two_spellings :
  hex24 alice_id = Some alice_oid /\
  hex24 (VString "65A1F0C2B7D4E8A9C3F10001") = Some alice_oid /\
  strict_equals alice_id (VString "65A1F0C2B7D4E8A9C3F10001") = false /\
  users (seeded []) !! alice_oid = Some alice /\
  fst (transfer hex24
         (send alice_id (VString "65A1F0C2B7D4E8A9C3F10001") (of_Z 150))
         (seeded [])) =
    Fulfilled
      (mkResponse 200
         (Transferred "Transferred $150 from Alice to Alice"
                      (of_Z 850) (of_Z 1150))) /\
  calls (snd (transfer hex24
                (send alice_id (VString "65A1F0C2B7D4E8A9C3F10001") (of_Z 150))
                (seeded []))) =
    [FindById alice_id; FindById (VString "65A1F0C2B7D4E8A9C3F10001");
     Save (mkUser alice_oid "Alice" (of_Z 850));
     Save (mkUser alice_oid "Alice" (of_Z 1150))] /\
  users (snd (transfer hex24
                (send alice_id (VString "65A1F0C2B7D4E8A9C3F10001") (of_Z 150))
                (seeded []))) !! alice_oid =
    Some (mkUser alice_oid "Alice" (of_Z 1150)).
Proof. repeat split; vm_compute; reflexivity. Qed.

(** Alice, who holds 1000, cannot send 2000. *)
Lemma insufficient_funds_rejected_witness :
  exists w',
    transfer hex24 (send alice_id bob_id (of_Z 2000)) (seeded []) =
    (Fulfilled (mkResponse 400 (Message "Insufficient balance")), w') /\
    users w' = users (seeded []) /\
    calls w' = calls (seeded []) ++ [FindById alice_id; FindById bob_id].
Proof.
  apply (insufficient_funds_rejected hex24 (send alice_id bob_id (of_Z 2000))
           (seeded []) alice_oid bob_oid alice bob);
    vm_compute; reflexivity.
Defined.

(** Alice cannot send to herself; the store is not consulted, so it does
    not matter that its driver would reject every call. *)
Lemma self_transfer_rejected_witness :
  transfer hex24 (send alice_id alice_id (of_Z 10))
           (seeded [Some "connection lost"]) =
  (Fulfilled (mkResponse 400 (Message "Cannot transfer to the same account")),
   seeded [Some "connection lost"]).
Proof.
  apply (self_transfer_rejected hex24); reflexivity.
Defined.

(** A source identifier that is not 24 hexadecimal digits. *)
Lemma malformed_identifier_reported_witness :
  exists v w',
    transfer hex24 (send (VString "zz") bob_id (of_Z 10)) (seeded []) =
    (Fulfilled
       (mkResponse 500
          (MessageError "An error occurred during the transfer"
                        (CastError v))), w') /\
    hex24 v = None /\
    users w' = users (seeded []) /\
    (calls w' = calls (seeded []) ++ [FindById (VString "zz")] \/
     calls w' = calls (seeded []) ++ [FindById (VString "zz");
                                      FindById bob_id]).
Proof.
  apply (malformed_identifier_reported hex24
           (send (VString "zz") bob_id (of_Z 10)) (seeded []));
    try reflexivity.
  left. reflexivity.
Defined.

(** C8 as stated fails.  A malformed source identifier is answered with
    500 and the cast error; a well-formed one that resolves to no
    account is answered with 404. *)
Lemma malformed_identifier_is_not_not_found :
  hex24 (VString "zz") = None /\
  fst (transfer hex24 (send (VString "zz") bob_id (of_Z 10)) (seeded [])) =
    Fulfilled
      (mkResponse 500
         (MessageError "An error occurred during the transfer"
                       (CastError (VString "zz")))) /\
  resolves hex24 (seeded []) nobody_id = None /\
  fst (transfer hex24 (send nobody_id bob_id (of_Z 10)) (seeded [])) =
    Fulfilled (mkResponse 404 (Message "Sender account not found")).
Proof. repeat split; vm_compute; reflexivity. Qed.

(** ** Writes *)

Lemma non_negative_insert doc m :
  non_negative m ->
  invalid_paths (name doc) (balance doc) = [] ->
  non_negative (<[_id doc := doc]> m).
Proof.
  intros Hm Hv. apply map_Forall_insert_2; [|done].
  by apply (validated_non_negative (name doc)).
Qed.

Lemma save_non_negative doc w :
  non_negative (users w) -> non_negative (users (snd (save doc w))).
Proof.
  intros Hw. rewrite save_eq.
  destruct (invalid_paths _ _) eqn:Hv; [|done].
  destruct (reply w); [done|]. by apply non_negative_insert.
Qed.

Lemma create_users_non_negative (w : world) :
  non_negative (users w) -> non_negative (users (snd (create_users w))).
Proof.
  intros Hw. unfold create_users, try_catch, bind.
  rewrite deleteMany_eq. destruct (reply w); [done|].
  rewrite insertMany_usersData_eq.
  destruct (reply (mkWorld _ _ _ _)); simpl.
  - apply map_Forall_empty.
  - apply map_Forall_insert_2; [done|].
    apply map_Forall_insert_2; [done|]. apply map_Forall_empty.
Qed.

Ltac unpack :=
  repeat match goal with
  | H : exists _, _ |- _ => destruct H
  | H : _ /\ _ |- _ => destruct H
  | H : _ \/ _ |- _ => destruct H
  | H : validated _ |- _ => unfold validated in H
  | H : looked_up _ _ _ _ _ _ |- _ => unfold looked_up in H
  | H : thrown _ _ _ _ |- _ => unfold thrown in H
  end.

Section Writes.
Variable castObjectId : value -> option ObjectId.

Lemma transfer_non_negative (req : request) (w : world) :
  non_negative (users w) ->
  non_negative (users (snd (transfer castObjectId req w))).
Proof.
  intros Hw. unfold transfer.
  destruct (_ || _ || _); [done|].
  destruct (_ || _); [done|].
  destruct (strict_equals _ _); [done|].
  unfold try_catch, bind.
  pose proof (findById_users castObjectId (fromUserId req) w) as U1.
  destruct (findById castObjectId (fromUserId req) w) as [[src|e] w1];
    simpl in U1; [|simpl; by rewrite U1].
  pose proof (findById_users castObjectId (toUserId req) w1) as U2.
  destruct (findById castObjectId (toUserId req) w1) as [[dst|e] w2];
    simpl in U2; [|simpl; by rewrite U2, U1].
  rewrite <- U1, <- U2 in Hw.
  destruct src as [src|]; [|done].
  destruct dst as [dst|]; [|done].
  destruct (lt _ _); [done|].
  match goal with |- context [save ?d w2] =>
    pose proof (save_non_negative d w2 Hw) as Hw3;
    destruct (save d w2) as [[[]|e] w3] end; [|done].
  match goal with |- context [save ?d w3] =>
    pose proof (save_non_negative d w3 Hw3) as Hw4;
    destruct (save d w3) as [[[]|e] w4] end; done.
Qed.

(** C5.  If every stored balance is non-negative, it is so again after
    any transfer request and after seeding, whatever the driver does; and
    saving a document whose balance is not at least zero is rejected with
    a validation error that names [balance], the collection holding what
    it held: the balance is not clamped. *)
Theorem balances_stay_non_negative (w : world) :
  non_negative (users w) ->
  (forall req, non_negative (users (snd (transfer castObjectId req w)))) /\
  non_negative (users (snd (create_users w))) /\
  (forall doc, le pos_zero (balance doc) = false ->
     exists paths,
       save doc w = (Rejected (ValidationError paths), logged (Save doc) w) /\
       "balance" ∈ paths /\
       users (logged (Save doc) w) = users w).
Proof.
  intros Hw. split; [|split].
  - intros req. by apply transfer_non_negative.
  - by apply create_users_non_negative.
  - intros doc Hb. rewrite save_eq. unfold invalid_paths. rewrite Hb.
    destruct (String.eqb (name doc) EmptyString); simpl; eexists; repeat split;
      set_solver.
Qed.

(** C7.  In a transfer that gets as far as writing, if saving the
    source succeeds and saving the destination is then rejected, the
    handler answers 500 with that error; the four store calls are the two
    lookups and the two saves, with no further write; the collection is
    the old one with the source debited, and a destination that is
    another account holds what it held. *)
Theorem destination_write_failure_not_compensated
    (req : request) (w w1 w2 w3 w4 : world) (src dst : User) (e : error) :
  ToBoolean (fromUserId req) = true ->
  ToBoolean (toUserId req) = true ->
  ToBoolean (amount req) = true ->
  is_number (amount req) = true ->
  le (number_of (amount req)) pos_zero = false ->
  strict_equals (fromUserId req) (toUserId req) = false ->
  findById castObjectId (fromUserId req) w = (Fulfilled (Some src), w1) ->
  findById castObjectId (toUserId req) w1 = (Fulfilled (Some dst), w2) ->
  lt (balance src) (number_of (amount req)) = false ->
  let debited :=
    mkUser (_id src) (name src)
           (sub (balance src) (number_of (amount req))) in
  let credited :=
    mkUser (_id dst) (name dst)
           (add (balance dst) (number_of (amount req))) in
  save debited w2 = (Fulfilled tt, w3) ->
  save credited w3 = (Rejected e, w4) ->
  transfer castObjectId req w =
    (Fulfilled
       (mkResponse 500
          (MessageError "An error occurred during the transfer" e)), w4) /\
  calls w4 = calls w ++ [FindById (fromUserId req); FindById (toUserId req);
                         Save debited; Save credited] /\
  users w4 = <[_id src := debited]> (users w) /\
  users w4 !! _id src = Some debited /\
  (_id dst <> _id src -> users w4 !! _id dst = users w !! _id dst).
Proof.
  intros Hf Ht Ha Hn Hp He H1 H2 Hl debited credited H3 H4.
  pose proof (findById_users castObjectId (fromUserId req) w) as U1.
  pose proof (findById_users castObjectId (toUserId req) w1) as U2.
  pose proof (findById_calls castObjectId (fromUserId req) w) as C1.
  pose proof (findById_calls castObjectId (toUserId req) w1) as C2.
  rewrite H1 in U1, C1. rewrite H2 in U2, C2. simpl in U1, U2, C1, C2.
  apply save_fulfilled in H3 as H3'. destruct H3' as [U3 C3].
  apply save_rejected in H4 as H4'. destruct H4' as [U4 C4].
  assert (users w4 = <[_id src := debited]> (users w)) as Hu
    by (by rewrite U4, U3, U2, U1).
  split; [|split; [|split; [done|split]]].
  - unfold transfer, not. rewrite Hf, Ht, Ha, Hn, Hp, He. simpl.
    unfold try_catch, bind. rewrite H1, H2, Hl.
    fold debited. fold credited. by rewrite H3, H4.
  - rewrite C4, C3, C2, C1. by rewrite <- !app_assoc.
  - by rewrite Hu, lookup_insert_eq.
  - intros Hne. by rewrite Hu, lookup_insert_ne.
Qed.

(** The causes of two outcomes exclude each other, and an outcome has
    one body. *)
Lemma arises_functional (req : request) (w : world) (k k' : kind)
    (b b' : json) :
  arises castObjectId req w k b -> arises castObjectId req w k' b' ->
  k' = k /\ b' = b.
Proof.
  destruct k, k'; simpl; intros; unpack; split; congruence.
Qed.

(** Every transfer is answered, with an outcome that arises. *)
Lemma transfer_outcome (req : request) (w : world) :
  exists r w' k,
    transfer castObjectId req w = (Fulfilled r, w') /\
    arises castObjectId req w k (body r) /\
    status r = spec_status k /\
    kind_of r = Some k.
Proof.
  unfold transfer. fold (missing req). fold (invalid req).
  destruct (missing req) eqn:Hm.
  { do 2 eexists. exists MissingField. by eauto. }
  destruct (invalid req) eqn:Hv.
  { do 2 eexists. exists InvalidAmount. by eauto. }
  destruct (strict_equals _ _) eqn:He.
  { do 2 eexists. exists SelfTransfer. by eauto 6. }
  assert (validated req) as V by done.
  unfold try_catch, bind.
  destruct (findById castObjectId (fromUserId req) w) as [[src|e] w1] eqn:L1.
  2: { do 2 eexists. exists OperationalFailure. split; [reflexivity|].
       split; [|done]. split; [done|]. exists e. split; [|done].
       left. by eexists. }
  destruct (findById castObjectId (toUserId req) w1) as [[dst|e] w2] eqn:L2.
  2: { do 2 eexists. exists OperationalFailure. split; [reflexivity|].
       split; [|done]. split; [done|]. exists e. split; [|done].
       right; left. by exists src, w1, w2. }
  destruct src as [src|].
  2: { do 2 eexists. exists SourceNotFound. split; [reflexivity|].
       split; [|done]. split; [done|]. split; [|done].
       by exists dst, w2, w1. }
  destruct dst as [dst|].
  2: { do 2 eexists. exists DestinationNotFound. split; [reflexivity|].
       split; [|done]. split; [done|]. split; [|done].
       by exists src, w2, w1. }
  assert (looked_up castObjectId req w (Some src) (Some dst) w2) as L
    by (by exists w1).
  destruct (lt _ _) eqn:Hl.
  { do 2 eexists. exists InsufficientFunds. split; [reflexivity|].
    split; [|done]. split; [done|]. split; [|done]. by exists src, dst, w2. }
  fold (debited req src). fold (credited req dst).
  destruct (save (debited req src) w2) as [[[]|e] w3] eqn:S1.
  2: { do 2 eexists. exists OperationalFailure. split; [reflexivity|].
       split; [|done]. split; [done|]. exists e. split; [|done].
       right; right. exists src, dst, w2. do 2 (split; [done|]).
       left. by eexists. }
  destruct (save (credited req dst) w3) as [[[]|e] w4] eqn:S2.
  2: { do 2 eexists. exists OperationalFailure. split; [reflexivity|].
       split; [|done]. split; [done|]. exists e. split; [|done].
       right; right. exists src, dst, w2. do 2 (split; [done|]).
       right. by exists w3, w4. }
  do 2 eexists. exists Success. split; [reflexivity|].
  split; [|done]. split; [done|]. by exists src, dst, w2, w3, w4.
Qed.

(** C9.  Every transfer request is answered, by the one outcome that
    arises for the request and the store, and the status of the answer is
    the one that outcome maps to: 400 for MissingField (a field is falsy),
    InvalidAmount (the amount is not a number above zero), SelfTransfer
    (the identifiers are [===]) and InsufficientFunds (the source account
    that was found holds less than the amount); 404 for SourceNotFound and
    DestinationNotFound (the lookup was answered with no account); 500
    when a store call of the transfer, a lookup or a save, was rejected,
    with the error it was rejected with attached; and 200 when both saves
    were written, with the message and with the source balance minus the
    amount and the destination balance plus the amount. *)
Theorem transfer_status_by_kind (req : request) (w : world) :
  exists r w' k,
    transfer castObjectId req w = (Fulfilled r, w') /\
    arises castObjectId req w k (body r) /\
    status r = spec_status k /\
    kind_of r = Some k /\
    (forall k' b', arises castObjectId req w k' b' -> k' = k /\ b' = body r).
Proof.
  destruct (transfer_outcome req w) as (r & w' & k & E & A & S & K).
  exists r, w', k. do 4 (split; [done|]).
  intros k' b' A'. by apply (arises_functional req w).
Qed.

End Writes.

(** On the seeded store: balances stay non-negative through a transfer
    and through seeding, and a document with balance -1 is not saved. *)
Lemma balances_stay_non_negative_witness :
  (forall req,
     non_negative (users (snd (transfer hex24 req (seeded []))))) /\
  non_negative (users (snd (create_users (seeded [])))) /\
  (forall doc, le pos_zero (balance doc) = false ->
     exists paths,
       save doc (seeded []) =
         (Rejected (ValidationError paths), logged (Save doc) (seeded [])) /\
       "balance" ∈ paths /\
       users (logged (Save doc) (seeded [])) = users (seeded [])).
Proof.
  apply (balances_stay_non_negative hex24 (seeded [])).
  unfold non_negative. apply (bool_decide_unpack _). vm_compute. exact I.
Defined.

(** Alice sends 150 to Bob; the driver answers three calls and rejects
    the fourth.  Alice is left with 850 and Bob with his 500. *)
Lemma destination_write_failure_not_compensated_witness :
  fst (transfer hex24 (send alice_id bob_id (of_Z 150)) fourth_call_fails) =
    Fulfilled
      (mkResponse 500
         (MessageError "An error occurred during the transfer"
                       (DriverError "connection lost"))) /\
  users (snd (transfer hex24 (send alice_id bob_id (of_Z 150))
                       fourth_call_fails)) !! alice_oid =
    Some (mkUser alice_oid "Alice" (of_Z 850)) /\
  users (snd (transfer hex24 (send alice_id bob_id (of_Z 150))
                       fourth_call_fails)) !! bob_oid = Some bob.
Proof.
  set (w := fourth_call_fails).
  set (req := send alice_id bob_id (of_Z 150)).
  set (w1 := snd (findById hex24 alice_id w)).
  set (w2 := snd (findById hex24 bob_id w1)).
  set (w3 := snd (save (mkUser alice_oid "Alice" (of_Z 850)) w2)).
  set (w4 := snd (save (mkUser bob_oid "Bob" (of_Z 650)) w3)).
  destruct (destination_write_failure_not_compensated hex24 req
              w w1 w2 w3 w4 alice bob (DriverError "connection lost"))
    as (Hr & _ & _ & Hs & Hd); try (vm_compute; reflexivity).
  rewrite Hr. simpl. split; [reflexivity|]. split.
  - exact Hs.
  - transitivity (users w !! _id bob); [|vm_compute; reflexivity].
    apply Hd. vm_compute. discriminate.
Defined.

(** The outcome of Alice sending 150 to Bob on the seeded store. *)
Lemma transfer_status_by_kind_witness :
  exists r w' k,
    transfer hex24 (send alice_id bob_id (of_Z 150)) (seeded []) =
      (Fulfilled r, w') /\
    arises hex24 (send alice_id bob_id (of_Z 150)) (seeded []) k (body r) /\
    status r = spec_status k /\
    kind_of r = Some k /\
    (forall k' b',
       arises hex24 (send alice_id bob_id (of_Z 150)) (seeded []) k' b' ->
       k' = k /\ b' = body r).
Proof.
  exact (transfer_status_by_kind hex24 (send alice_id bob_id (of_Z 150))
           (seeded [])).
Defined.

(** ** Seeding *)

(** C10.  Seeding always answers; it answers 201 exactly when the driver
    answers both of its calls, and then it has called [deleteMany] and
    after it [insertMany], it returns the two created documents, and the
    collection holds exactly two accounts whatever it held before: Alice
    with 1000 and Bob with 500. *)
Theorem create_users_seeds (w : world) :
  exists r w',
    create_users w = (Fulfilled r, w') /\
    (status r = 201 <-> answers 2 w = true) /\
    (status r = 201 ->
     let alice := mkUser (next_id w) "Alice" (of_Z 1000) in
     let bob := mkUser (N.succ (next_id w)) "Bob" (of_Z 500) in
     body r = UsersCreated "Users created" [alice; bob] /\
     users w' = <[_id bob := bob]> {[_id alice := alice]} /\
     size (users w') = 2%nat /\
     calls w' = calls w ++ [DeleteMany; InsertMany usersData]).
Proof.
  unfold create_users, try_catch, bind.
  rewrite deleteMany_eq. destruct (reply w) eqn:R1.
  { do 2 eexists; split; [done|]. simpl. split; [|done].
    split; [done|]. intros Hw. apply answers_S in Hw as [Hw _]. congruence. }
  rewrite insertMany_usersData_eq.
  destruct (reply (mkWorld _ _ _ _)) eqn:R2.
  { do 2 eexists; split; [done|]. simpl. split; [|done].
    split; [done|]. intros Hw. apply answers_S in Hw as [_ Hw].
    apply answers_S in Hw as [Hw _].
    unfold reply in *; simpl in *. congruence. }
  do 2 eexists; split; [done|]. simpl. split.
  - split; [|done]. intros _. unfold answers, reply in *. simpl in *.
    destruct (faults w) as [|[m|] [|[m'|] f]]; simpl in *; done.
  - intros _. split; [done|]. split; [done|]. split; [apply two_inserted|].
    by rewrite two_calls.
Qed.

(** Seeding a store that already holds Alice and Bob, after a transfer. *)
Lemma create_users_seeds_witness :
  exists r w',
    create_users drained = (Fulfilled r, w') /\
    (status r = 201 <-> answers 2 drained = true) /\
    (status r = 201 ->
     let alice := mkUser (next_id drained) "Alice" (of_Z 1000) in
     let bob := mkUser (N.succ (next_id drained)) "Bob" (of_Z 500) in
     body r = UsersCreated "Users created" [alice; bob] /\
     users w' = <[_id bob := bob]> {[_id alice := alice]} /\
     size (users w') = 2%nat /\
     calls w' = calls drained ++ [DeleteMany; InsertMany usersData]).
Proof. exact (create_users_seeds drained). Defined.

(** * Further properties of the two routes *)

(** ** Every transfer takes one of the paths *)

Section Followed.
Variable castObjectId : value -> option ObjectId.

Lemma transfer_follows_a_path (req : request) (w : world) :
  exists r w',
    transfer castObjectId req w = (Fulfilled r, w') /\
    path castObjectId req w r w'.
Proof.
  unfold transfer. fold (missing req). fold (invalid req).
  destruct (missing req) eqn:Hm;
    [do 2 eexists; split; [reflexivity|]; by constructor|].
  destruct (invalid req) eqn:Hv;
    [do 2 eexists; split; [reflexivity|]; by constructor|].
  destruct (strict_equals _ _) eqn:He;
    [do 2 eexists; split; [reflexivity|]; by constructor|].
  assert (validated req) as V by done.
  unfold try_catch, bind. rewrite findById_eq.
  destruct (castObjectId (fromUserId req)) as [i|] eqn:Hi;
    [|do 2 eexists; split; [reflexivity|]; by constructor].
  destruct (reply w) as [m|] eqn:R1;
    [do 2 eexists; split; [reflexivity|]; by econstructor|].
  rewrite findById_eq. fold (after_first req w).
  destruct (castObjectId (toUserId req)) as [j|] eqn:Hj;
    [|do 2 eexists; split; [reflexivity|]; by econstructor].
  destruct (reply (after_first req w)) as [m|] eqn:R2;
    [do 2 eexists; split; [reflexivity|]; by econstructor|].
  fold (after_second req w). cbv iota beta.
  change (users (after_first req w)) with (users w).
  destruct (users w !! i) as [src|] eqn:Hs;
    [|do 2 eexists; split; [reflexivity|]; by econstructor].
  destruct (users w !! j) as [dst|] eqn:Hd;
    [|do 2 eexists; split; [reflexivity|]; by econstructor].
  destruct (lt _ _) eqn:Hl;
    [do 2 eexists; split; [reflexivity|]; by econstructor|].
  fold (debited req src). fold (credited req dst).
  rewrite save_eq.
  destruct (invalid_paths (name (debited req src)) _) as [|p ps] eqn:V1;
    [|do 2 eexists; split; [reflexivity|]; by econstructor].
  destruct (reply (after_second req w)) as [m|] eqn:R3;
    [do 2 eexists; split; [reflexivity|]; by econstructor|].
  fold (after_debit req src w). rewrite save_eq.
  destruct (invalid_paths (name (credited req dst)) _) as [|p ps] eqn:V2;
    [|do 2 eexists; split; [reflexivity|]; by econstructor].
  destruct (reply (after_debit req src w)) as [m|] eqn:R4;
    [do 2 eexists; split; [reflexivity|]; by econstructor|].
  do 2 eexists; split; [reflexivity|].
  by apply (path_done castObjectId req w i j src dst).
Qed.


(** X1.  A transfer is reported as MissingField exactly when one of the
    three fields is falsy (an amount of 0 counts as missing), as
    InvalidAmount exactly when no field is falsy and the amount is not a
    number or is at most zero, and as SelfTransfer exactly when the first
    two tests pass and the identifiers are [===]; in these three cases
    the world is left as it was. *)
Theorem validation_failures_characterised (req : request) (w : world) :
  exists r w',
    transfer castObjectId req w = (Fulfilled r, w') /\
    (kind_of r = Some MissingField <-> missing req = true) /\
    (kind_of r = Some InvalidAmount <->
     missing req = false /\ invalid req = true) /\
    (kind_of r = Some SelfTransfer <->
     missing req = false /\ invalid req = false /\
     strict_equals (fromUserId req) (toUserId req) = true) /\
    (missing req = true \/ invalid req = true \/
     strict_equals (fromUserId req) (toUserId req) = true -> w' = w).
Proof.
  destruct (transfer_follows_a_path req w) as (r & w' & E & P).
  exists r, w'. split; [exact E|].
  destruct P;
    try match goal with V : validated _ |- _ => destruct V as (? & ? & ?) end;
    cbn; repeat split; intros; destruct_and?; destruct_or?;
    congruence.
Qed.

(** X2.  The store calls of a transfer are, in this order, the lookup of
    the source identifier, the lookup of the destination identifier, the
    save of the source account that was found, debited, and the save of
    the destination account that was found, credited, or a beginning of
    that sequence; a save is only made once both accounts were found; a
    success has made all four calls, and a 400 or 404 has made no save and
    has left the collection as it was. *)
Theorem store_calls_in_order (req : request) (w : world) :
  exists r w' l,
    transfer castObjectId req w = (Fulfilled r, w') /\
    calls w' = calls w ++ l /\
    (l `prefix_of` [FindById (fromUserId req); FindById (toUserId req)] \/
     exists src dst w2,
       looked_up castObjectId req w (Some src) (Some dst) w2 /\
       l `prefix_of` store_calls req src dst) /\
    (status r = 200 -> length l = 4%nat) /\
    (status r = 400 \/ status r = 404 ->
     filter (fun c => is_save c = true) l = [] /\ users w' = users w).
Proof.
  unfold transfer.
  destruct (_ || _ || _).
  { do 2 eexists. exists []. split; [reflexivity|]. rewrite app_nil_r.
    repeat split; try done. left. by eexists. }
  destruct (_ || _).
  { do 2 eexists. exists []. split; [reflexivity|]. rewrite app_nil_r.
    repeat split; try done. left. by eexists. }
  destruct (strict_equals _ _).
  { do 2 eexists. exists []. split; [reflexivity|]. rewrite app_nil_r.
    repeat split; try done. left. by eexists. }
  unfold try_catch, bind.
  destruct (findById castObjectId (fromUserId req) w) as [[src|e] w1] eqn:L1.
  2: { do 2 eexists. exists [FindById (fromUserId req)].
       split; [reflexivity|]. facts. simpl.
       split; [done|]. split; [left; by eexists|]. split; [done|].
       by intros [|]. }
  destruct (findById castObjectId (toUserId req) w1) as [[dst|e] w2] eqn:L2.
  2: { do 2 eexists.
       exists [FindById (fromUserId req); FindById (toUserId req)].
       split; [reflexivity|]. facts. simpl.
       split; [by chain|].
       split; [left; by eexists|]. split; [done|]. by intros [|]. }
  assert (calls w2 = calls w ++ [FindById (fromUserId req);
                                 FindById (toUserId req)] /\
          users w2 = users w) as [C2 U2].
  { pose proof L1 as K1. pose proof L2 as K2. facts. split; by chain. }
  destruct src as [src|].
  2: { do 2 eexists.
       exists [FindById (fromUserId req); FindById (toUserId req)].
       split; [reflexivity|]. simpl. split; [done|].
       split; [left; by eexists|]. done. }
  destruct dst as [dst|].
  2: { do 2 eexists.
       exists [FindById (fromUserId req); FindById (toUserId req)].
       split; [reflexivity|]. simpl. split; [done|].
       split; [left; by eexists|]. done. }
  assert (looked_up castObjectId req w (Some src) (Some dst) w2) as L
    by (by exists w1).
  destruct (lt _ _).
  { do 2 eexists.
    exists [FindById (fromUserId req); FindById (toUserId req)].
    split; [reflexivity|]. simpl. split; [done|].
    split; [left; by eexists|]. done. }
  fold (debited req src). fold (credited req dst).
  destruct (save (debited req src) w2) as [[[]|e] w3] eqn:S1.
  2: { do 2 eexists.
       exists [FindById (fromUserId req); FindById (toUserId req);
               Save (debited req src)].
       split; [reflexivity|]. facts. simpl.
       split; [by chain|].
       split; [right; exists src, dst, w2; split; [done|]; by eexists|].
       split; [done|]. by intros [|]. }
  destruct (save (credited req dst) w3) as [[[]|e] w4] eqn:S2.
  2: { do 2 eexists. exists (store_calls req src dst).
       split; [reflexivity|]. facts. simpl.
       split; [by chain|].
       split; [right; by exists src, dst, w2|].
       split; [done|]. by intros [|]. }
  do 2 eexists. exists (store_calls req src dst).
  split; [reflexivity|]. facts. simpl.
  split; [by chain|].
  split; [right; by exists src, dst, w2|].
  split; [done|]. by intros [|].
Qed.


(** X3.  Whatever the outcome, a transfer leaves alone every account
    other than the two that its lookups returned. *)
Theorem other_accounts_untouched (req : request) (w : world) (k : ObjectId) :
  (forall u w1,
     findById castObjectId (fromUserId req) w = (Fulfilled (Some u), w1) ->
     _id u <> k) ->
  (forall o u w1 w2,
     findById castObjectId (fromUserId req) w = (Fulfilled o, w1) ->
     findById castObjectId (toUserId req) w1 = (Fulfilled (Some u), w2) ->
     _id u <> k) ->
  users (snd (transfer castObjectId req w)) !! k = users w !! k.
Proof.
  intros H1 H2. unfold transfer.
  destruct (_ || _ || _); [done|].
  destruct (_ || _); [done|].
  destruct (strict_equals _ _); [done|].
  unfold try_catch, bind.
  destruct (findById castObjectId (fromUserId req) w) as [[src|e] w1] eqn:L1;
    [|facts; simpl; congruence].
  pose proof (fun u w3 => H2 src u w1 w3 eq_refl) as H3. clear H2.
  destruct (findById castObjectId (toUserId req) w1) as [[dst|e] w2] eqn:L2;
    [|facts; simpl; congruence].
  assert (users w2 = users w) as U2
    by (pose proof L1 as K1; pose proof L2 as K2; facts; congruence).
  destruct src as [src|]; [|simpl; congruence].
  destruct dst as [dst|]; [|simpl; congruence].
  specialize (H1 src w1 eq_refl). specialize (H3 dst w2 eq_refl).
  destruct (lt _ _); [simpl; congruence|].
  destruct (save _ w2) as [[[]|e] w3] eqn:S1;
    [|facts; simpl; congruence].
  destruct (save _ w3) as [[[]|e] w4] eqn:S2; facts; simpl in *.
  - chain. by rewrite !lookup_insert_ne.
  - chain. by rewrite lookup_insert_ne.
Qed.


(** X4.  A transfer neither creates nor deletes nor renames an account:
    the collection has the same identifiers afterwards, each document
    still sits under its own [_id], and each carries the name it had. *)
Theorem accounts_are_kept (req : request) (w : world) :
  keyed (users w) ->
  keyed (users (snd (transfer castObjectId req w))) /\
  dom (users (snd (transfer castObjectId req w))) = dom (users w) /\
  (forall i u', users (snd (transfer castObjectId req w)) !! i = Some u' ->
     exists u, users w !! i = Some u /\ name u' = name u).
Proof.
  intros K.
  destruct (transfer_follows_a_path req w) as (r & w' & E & P).
  rewrite E. simpl.
  assert (forall i u d m,
            users w !! i = Some u -> _id d = _id u -> name d = name u ->
            keyed m -> dom m = dom (users w) ->
            (forall k x, m !! k = Some x ->
               exists y, users w !! k = Some y /\ name x = name y) ->
            keyed (<[_id d := d]> m) /\
            dom (<[_id d := d]> m) = dom (users w) /\
            (forall k x, <[_id d := d]> m !! k = Some x ->
               exists y, users w !! k = Some y /\ name x = name y))
    as Step.
  { intros i u d m Hu Hid Hn Km Dm Nm.
    pose proof (K i u Hu) as Ki. split; [|split].
    - by apply map_Forall_insert_2.
    - rewrite Hid, Ki, dom_insert_lookup_L; [done|].
      apply elem_of_dom. rewrite Dm. apply elem_of_dom. by eexists.
    - intros k x. rewrite lookup_insert. case_decide as Hk.
      + intros [= <-]. exists u. split; [|done]. congruence.
      + apply Nm. }
  assert (keyed (users w) /\ dom (users w) = dom (users w) /\
          (forall k x, users w !! k = Some x ->
             exists y, users w !! k = Some y /\ name x = name y))
    as Base by (repeat split; eauto).
  destruct P; simpl; try exact Base.
  - destruct Base as (B1 & B2 & B3).
    by apply (Step i src (debited req src)).
  - destruct Base as (B1 & B2 & B3).
    by apply (Step i src (debited req src)).
  - destruct Base as (B1 & B2 & B3).
    destruct (Step i src (debited req src) (users w)) as (S1 & S2 & S3);
      try done.
    by apply (Step j dst (credited req dst)).
Qed.

(** X5.  When two different accounts are involved, the balances a
    successful transfer reports are the balances it has stored. *)
Theorem reported_balances_are_stored (req : request) (w w' : world)
    (r : response) (i j : ObjectId) (m : string) (sb rb : number) :
  keyed (users w) ->
  castObjectId (fromUserId req) = Some i ->
  castObjectId (toUserId req) = Some j ->
  i <> j ->
  transfer castObjectId req w = (Fulfilled r, w') ->
  body r = Transferred m sb rb ->
  balance <$> users w' !! i = Some sb /\
  balance <$> users w' !! j = Some rb.
Proof.
  intros K Hi Hj Hne E Hb.
  destruct (transfer_follows_a_path req w) as (r0 & w0 & E0 & P).
  rewrite E0 in E. injection E as -> ->.
  destruct P as [| | | | | | | | | | | | | |i' j' src dst V Hi' Hj' R1 R2 Hs Hd];
    try discriminate Hb.
  injection Hb as _ <- <-.
  assert (i' = i) as -> by congruence.
  assert (j' = j) as -> by congruence.
  pose proof (K i src Hs) as Ks. pose proof (K j dst Hd) as Kd.
  simpl in Ks, Kd. simpl. rewrite Kd, Ks.
  rewrite lookup_insert_eq, lookup_insert_ne, lookup_insert_eq by done.
  done.
Qed.


End Followed.

(** ** Amounts at the edges *)

Lemma sub_self a :
  is_finite a = true -> lt pos_zero a = true -> sub a a = pos_zero.
Proof.
  destruct a as [[]|[]| |[] m e]; try done. intros _ _.
  unfold sub, SFsub. rewrite Z.min_id. unfold shl_align.
  by rewrite !Z.sub_diag.
Qed.

Lemma le_refl_finite a : is_finite a = true -> le a a = true.
Proof.
  destruct a as [[]|[]| |[] m e]; try done; intros _;
    unfold le, SFleb; simpl; rewrite Z.compare_refl;
    by rewrite Pos.compare_cont_refl.
Qed.

Lemma infinite_debit_is_invalid n b :
  lt b pos_infinity = false ->
  invalid_paths n (sub b pos_infinity) <> [].
Proof.
  unfold invalid_paths.
  destruct b as [[]|[]| |[] m e]; try done; intros _; simpl;
    by destruct (String.eqb n EmptyString).
Qed.

Section Edges.
Variable castObjectId : value -> option ObjectId.

(** X6.  An amount of [Infinity] passes the amount check but is never
    transferred: for every store and every driver, the answer is not a
    success and the collection is left as it was. *)
Theorem infinite_amount_never_transferred (req : request) (w : world) :
  amount req = VNumber pos_infinity ->
  exists r w',
    transfer castObjectId req w = (Fulfilled r, w') /\
    status r <> 200 /\
    users w' = users w.
Proof.
  intros Ha.
  destruct (transfer_follows_a_path castObjectId req w) as (r & w' & E & P).
  exists r, w'. split; [exact E|].
  destruct P; simpl; try done;
    exfalso;
    match goal with
    | Hl : lt (balance ?s) _ = false,
      Hv : invalid_paths ?n (balance (debited req ?s)) = [] |- _ =>
        unfold debited in Hv; simpl in Hv; rewrite Ha in Hl, Hv;
        simpl in Hl, Hv; by apply (infinite_debit_is_invalid n _ Hl)
    end.
Qed.

(** X7.  On a collection of well-formed documents, a transfer of a
    finite amount never fails validation: the test on the source
    balance is enough for the debited balance to meet [min: 0], and so
    does the credited one. *)
Theorem finite_transfer_passes_validation (req : request) (w : world)
    (a : number) :
  all_well_formed (users w) ->
  amount req = VNumber a ->
  valid a = true ->
  is_finite a = true ->
  exists r w',
    transfer castObjectId req w = (Fulfilled r, w') /\
    forall m paths, body r <> MessageError m (ValidationError paths).
Proof.
  intros W Ha Va Fa.
  destruct (transfer_follows_a_path castObjectId req w) as (r & w' & E & P).
  exists r, w'. split; [exact E|].
  destruct P as
    [| | | | | | | | |
     |i j src dst p ps V Hi Hj R1 R2 Hs Hd Hl V1
     |
     |i j src dst p ps V Hi Hj R1 R2 Hs Hd Hl V1 R3 V2
     | |]; try done; exfalso;
    destruct V as (Hm & Hv & _); unfold missing, invalid, not in Hm, Hv;
    rewrite Ha in Hm, Hv, Hl; simpl in Hm, Hv, Hl;
    apply orb_false_elim in Hm as [_ Hm]; apply negb_false_iff in Hm;
    pose proof (truthy_above_zero a Hm Hv) as Pa;
    apply W in Hs; apply W in Hd;
    apply well_formed_valid in Hs as (Vs & Ns & Ps);
    apply well_formed_valid in Hd as (Vd & Nd & Pd).
  - pose proof (not_lt_le _ _ Ps Pa Hl) as Hle.
    unfold invalid_paths, debited in V1. simpl in V1.
    rewrite Ha in V1. simpl in V1.
    by rewrite Ns, (sub_non_negative _ _ Va Vs Fa Pa Hle) in V1.
  - unfold invalid_paths, credited in V2. simpl in V2.
    rewrite Ha in V2. simpl in V2.
    by rewrite Nd, (add_non_negative _ _ Pd Pa) in V2.
Qed.


(** X8.  An account can send all it holds: when the amount is the source
    balance, a finite number above zero, and the store answers, the
    transfer succeeds and reports a source balance of zero. *)
Theorem whole_balance_can_be_sent (req : request) (w : world)
    (i j : ObjectId) (src dst : User) :
  ToBoolean (fromUserId req) = true ->
  ToBoolean (toUserId req) = true ->
  amount req = VNumber (balance src) ->
  is_finite (balance src) = true ->
  lt pos_zero (balance src) = true ->
  strict_equals (fromUserId req) (toUserId req) = false ->
  castObjectId (fromUserId req) = Some i ->
  castObjectId (toUserId req) = Some j ->
  users w !! i = Some src ->
  users w !! j = Some dst ->
  String.eqb (name src) EmptyString = false ->
  String.eqb (name dst) EmptyString = false ->
  le pos_zero (balance dst) = true ->
  answers 4 w = true ->
  exists m w',
    transfer castObjectId req w =
      (Fulfilled
         (mkResponse 200
            (Transferred m pos_zero (add (balance dst) (balance src)))),
       w') /\
    users w' !! _id dst =
      Some (mkUser (_id dst) (name dst) (add (balance dst) (balance src))) /\
    (_id src <> _id dst ->
     users w' !! _id src = Some (mkUser (_id src) (name src) pos_zero)).
Proof.
  intros Hf Ht Ha Fa Pa He Hi Hj Hs Hd Ns Nd Pd Hw.
  destruct (positive_amount_accepted _ Pa) as [Ta Za].
  pose proof (sub_self _ Fa Pa) as Hz.
  pose proof (le_not_lt _ _ (le_refl_finite _ Fa)) as Hl.
  unfold transfer, not. rewrite Hf, Ht, Ha. simpl. rewrite Ta, Za, He. simpl.
  unfold try_catch, bind.
  destruct (findById_answered _ _ _ _ _ Hw Hi) as [-> Hw1].
  destruct (findById_answered _ _ _ _ _ Hw1 Hj) as [-> Hw2]. simpl.
  rewrite Hs, Hd, Hl, Hz.
  set (d := mkUser (_id src) (name src) pos_zero).
  set (c := mkUser (_id dst) (name dst) (add (balance dst) (balance src))).
  assert (invalid_paths (name d) (balance d) = []) as Id
    by (unfold invalid_paths; simpl; by rewrite Ns).
  assert (invalid_paths (name c) (balance c) = []) as Ic.
  { unfold invalid_paths. simpl. rewrite Nd.
    by rewrite (add_non_negative _ _ Pd Pa). }
  destruct (save_answered _ _ _ Hw2 Id) as [-> Hw3].
  destruct (save_answered _ _ _ Hw3 Ic) as [-> _].
  do 2 eexists. split; [reflexivity|]. simpl. split.
  - by rewrite lookup_insert_eq.
  - intros Hne. by rewrite lookup_insert_ne, lookup_insert_eq.
Qed.

(** X9.  A success is sent only after every check: the request passed
    the three tests on its fields, both lookups were answered with an
    account, the source balance was not below the amount, both new
    balances met [min: 0], and both saves were written; the answer
    reports the two new balances, and the collection is the old one with
    the two saved documents. *)
Theorem success_only_after_all_checks (req : request) (w w' : world)
    (r : response) :
  transfer castObjectId req w = (Fulfilled r, w') ->
  status r = 200 ->
  validated req /\
  exists src dst w2 w3,
    looked_up castObjectId req w (Some src) (Some dst) w2 /\
    lt (balance src) (number_of (amount req)) = false /\
    le pos_zero (balance (debited req src)) = true /\
    le pos_zero (balance (credited req dst)) = true /\
    save (debited req src) w2 = (Fulfilled tt, w3) /\
    save (credited req dst) w3 = (Fulfilled tt, w') /\
    r = succeeded req src dst /\
    users w' = <[_id dst := credited req dst]>
                 (<[_id src := debited req src]> (users w)).
Proof.
  unfold transfer. fold (missing req). fold (invalid req).
  destruct (missing req) eqn:Hm; [by intros [= <- <-]|].
  destruct (invalid req) eqn:Hv; [by intros [= <- <-]|].
  destruct (strict_equals _ _) eqn:He; [by intros [= <- <-]|].
  unfold try_catch, bind.
  destruct (findById castObjectId (fromUserId req) w) as [[src|e] w1] eqn:L1;
    [|by intros [= <- <-]].
  destruct (findById castObjectId (toUserId req) w1) as [[dst|e] w2] eqn:L2;
    [|by intros [= <- <-]].
  destruct src as [src|]; [|by intros [= <- <-]].
  destruct dst as [dst|]; [|by intros [= <- <-]].
  destruct (lt _ _) eqn:Hl; [by intros [= <- <-]|].
  fold (debited req src). fold (credited req dst).
  destruct (save (debited req src) w2) as [[[]|e] w3] eqn:S1;
    [|by intros [= <- <-]].
  destruct (save (credited req dst) w3) as [[[]|e] w4] eqn:S2;
    [|by intros [= <- <-]].
  intros [= <- <-] _. split; [done|].
  exists src, dst, w2, w3.
  split; [by exists w1|]. split; [done|].
  assert (invalid_paths (name (debited req src)) (balance (debited req src))
          = [] /\
          invalid_paths (name (credited req dst)) (balance (credited req dst))
          = []) as [V1 V2].
  { rewrite save_eq in S1, S2. split.
    - by destruct (invalid_paths (name (debited req src)) _).
    - by destruct (invalid_paths (name (credited req dst)) _). }
  split; [by apply (validated_non_negative (name (debited req src)))|].
  split; [by apply (validated_non_negative (name (credited req dst)))|].
  do 3 (split; [done|]).
  facts. by chain.
Qed.

End Edges.

(** ** Seeding that fails *)

(** X10.  Seeding answers 201 or 500.  When it answers 500 the error of
    the driver is attached, and the collection is either what it was,
    because [deleteMany] was rejected, or empty, because [deleteMany] was
    answered and [insertMany] rejected: the old accounts are then gone
    and the new ones are not there. *)
Theorem failed_seeding_outcomes (w : world) :
  exists r w',
    create_users w = (Fulfilled r, w') /\
    (status r = 201 \/ status r = 500) /\
    (status r = 500 ->
     exists m,
       body r = MessageError "Error creating users" (DriverError m) /\
       Some m ∈ faults w /\
       ((reply w = Some m /\ users w' = users w) \/
        (reply w = None /\ users w' = ∅))).
Proof.
  unfold create_users, try_catch, bind.
  rewrite deleteMany_eq. destruct (reply w) as [m|] eqn:R1.
  { do 2 eexists. split; [reflexivity|]. simpl. split; [by right|].
    intros _. exists m. split; [done|]. split; [by apply reply_in_faults|].
    by left. }
  rewrite insertMany_usersData_eq.
  destruct (reply (mkWorld _ _ _ _)) as [m|] eqn:R2.
  { do 2 eexists. split; [reflexivity|]. simpl. split; [by right|].
    intros _. exists m. split; [done|]. split.
    - apply reply_in_faults in R2. simpl in R2. by apply elem_of_tail.
    - by right. }
  do 2 eexists. split; [reflexivity|]. simpl. split; [by left|]. done.
Qed.

Lemma seeded_collection (w w' : world) (r : response) :
  create_users w = (Fulfilled r, w') ->
  status r = 201 ->
  users w' =
    <[N.succ (next_id w) := mkUser (N.succ (next_id w)) "Bob" (of_Z 500)]>
      (<[next_id w := mkUser (next_id w) "Alice" (of_Z 1000)]> ∅) /\
  next_id w' = (next_id w + 2)%N.
Proof.
  unfold create_users, try_catch, bind, resolve.
  rewrite deleteMany_eq. destruct (reply w) as [m|] eqn:R1.
  { intros [= <- <-]. done. }
  rewrite insertMany_usersData_eq.
  destruct (reply (mkWorld _ _ _ _)) as [m|] eqn:R2.
  { intros [= <- <-]. done. }
  by intros [= <- <-] _.
Qed.

(** X11.  Seeding twice in a row retires the identifiers of the first
    seeding: the second collection holds Alice and Bob under two new
    identifiers, and nothing under the old ones. *)
Theorem reseeding_retires_identifiers (w w1 w2 : world) (r1 r2 : response) :
  create_users w = (Fulfilled r1, w1) ->
  status r1 = 201 ->
  create_users w1 = (Fulfilled r2, w2) ->
  status r2 = 201 ->
  users w1 !! next_id w = Some (mkUser (next_id w) "Alice" (of_Z 1000)) /\
  users w1 !! N.succ (next_id w) =
    Some (mkUser (N.succ (next_id w)) "Bob" (of_Z 500)) /\
  users w2 !! next_id w = None /\
  users w2 !! N.succ (next_id w) = None /\
  size (users w2) = 2%nat.
Proof.
  intros E1 S1 E2 S2.
  destruct (seeded_collection _ _ _ E1 S1) as [U1 N1].
  destruct (seeded_collection _ _ _ E2 S2) as [U2 _].
  rewrite U2, U1, N1.
  split; [|split; [|split; [|split]]].
  - rewrite lookup_insert_ne by lia. by rewrite lookup_insert_eq.
  - by rewrite lookup_insert_eq.
  - rewrite !lookup_insert_ne by lia. done.
  - rewrite !lookup_insert_ne by lia. done.
  - apply two_inserted.
Qed.

(** ** The same, on the seeded store *)

(** Alice sends 150 to herself under a second spelling: Bob is left
    alone. *)
Lemma other_accounts_untouched_witness :
  users (snd (transfer hex24
                (send alice_id (VString "65A1F0C2B7D4E8A9C3F10001") (of_Z 150))
                (seeded []))) !! bob_oid =
  users (seeded []) !! bob_oid.
Proof.
  apply (other_accounts_untouched hex24).
  - intros u w1 H. vm_compute in H. injection H as <- _.
    vm_compute. discriminate.
  - intros o u w1 w2 H1 H2. vm_compute in H1. injection H1 as _ <-.
    vm_compute in H2. injection H2 as <- _. vm_compute. discriminate.
Defined.

Lemma accounts_are_kept_witness :
  keyed (users (snd (transfer hex24 (send alice_id bob_id (of_Z 150))
                              (seeded [])))) /\
  dom (users (snd (transfer hex24 (send alice_id bob_id (of_Z 150))
                            (seeded [])))) = dom (users (seeded [])) /\
  (forall i u',
     users (snd (transfer hex24 (send alice_id bob_id (of_Z 150))
                          (seeded []))) !! i = Some u' ->
     exists u, users (seeded []) !! i = Some u /\ name u' = name u).
Proof.
  apply (accounts_are_kept hex24 (send alice_id bob_id (of_Z 150)) (seeded [])).
  apply (bool_decide_unpack _). vm_compute. exact I.
Defined.

Lemma infinite_amount_never_transferred_witness :
  exists r w',
    transfer hex24 (send alice_id bob_id pos_infinity) (seeded []) =
      (Fulfilled r, w') /\
    status r <> 200 /\
    users w' = users (seeded []).
Proof.
  apply (infinite_amount_never_transferred hex24
           (send alice_id bob_id pos_infinity) (seeded [])).
  reflexivity.
Defined.

Lemma finite_transfer_passes_validation_witness :
  exists r w',
    transfer hex24 (send alice_id bob_id (of_Z 150)) (seeded []) =
      (Fulfilled r, w') /\
    forall m paths, body r <> MessageError m (ValidationError paths).
Proof.
  apply (finite_transfer_passes_validation hex24
           (send alice_id bob_id (of_Z 150)) (seeded []) (of_Z 150)).
  - apply (bool_decide_unpack _). vm_compute. exact I.
  - reflexivity.
  - vm_compute. reflexivity.
  - reflexivity.
Defined.

Lemma reported_balances_are_stored_witness :
  balance <$> users (snd (transfer hex24 (send alice_id bob_id (of_Z 150))
                                   (seeded []))) !! alice_oid
    = Some (of_Z 850) /\
  balance <$> users (snd (transfer hex24 (send alice_id bob_id (of_Z 150))
                                   (seeded []))) !! bob_oid
    = Some (of_Z 650).
Proof.
  apply (reported_balances_are_stored hex24
           (send alice_id bob_id (of_Z 150)) (seeded [])
           (snd (transfer hex24 (send alice_id bob_id (of_Z 150)) (seeded [])))
           (mkResponse 200
              (Transferred "Transferred $150 from Alice to Bob"
                           (of_Z 850) (of_Z 650)))
           alice_oid bob_oid "Transferred $150 from Alice to Bob").
  - apply (bool_decide_unpack _). vm_compute. exact I.
  - vm_compute. reflexivity.
  - vm_compute. reflexivity.
  - vm_compute. discriminate.
  - vm_compute. reflexivity.
  - reflexivity.
Defined.

(** Alice sends her 1000. *)
Lemma whole_balance_can_be_sent_witness :
  exists m w',
    transfer hex24 (send alice_id bob_id (of_Z 1000)) (seeded []) =
      (Fulfilled
         (mkResponse 200 (Transferred m pos_zero (add (of_Z 500) (of_Z 1000)))),
       w') /\
    users w' !! bob_oid =
      Some (mkUser bob_oid "Bob" (add (of_Z 500) (of_Z 1000))) /\
    (alice_oid <> bob_oid ->
     users w' !! alice_oid = Some (mkUser alice_oid "Alice" pos_zero)).
Proof.
  apply (whole_balance_can_be_sent hex24
           (send alice_id bob_id (of_Z 1000)) (seeded [])
           alice_oid bob_oid alice bob);
    vm_compute; reflexivity.
Defined.

Lemma success_only_after_all_checks_witness :
  validated (send alice_id bob_id (of_Z 150)) /\
  exists src dst w2 w3,
    looked_up hex24 (send alice_id bob_id (of_Z 150)) (seeded [])
              (Some src) (Some dst) w2 /\
    lt (balance src) (of_Z 150) = false /\
    le pos_zero (balance (debited (send alice_id bob_id (of_Z 150)) src))
      = true /\
    le pos_zero (balance (credited (send alice_id bob_id (of_Z 150)) dst))
      = true /\
    save (debited (send alice_id bob_id (of_Z 150)) src) w2
      = (Fulfilled tt, w3) /\
    save (credited (send alice_id bob_id (of_Z 150)) dst) w3
      = (Fulfilled tt,
         snd (transfer hex24 (send alice_id bob_id (of_Z 150)) (seeded []))) /\
    mkResponse 200
      (Transferred "Transferred $150 from Alice to Bob" (of_Z 850) (of_Z 650))
      = succeeded (send alice_id bob_id (of_Z 150)) src dst /\
    users (snd (transfer hex24 (send alice_id bob_id (of_Z 150)) (seeded [])))
      = <[_id dst := credited (send alice_id bob_id (of_Z 150)) dst]>
          (<[_id src := debited (send alice_id bob_id (of_Z 150)) src]>
             (users (seeded []))).
Proof.
  apply (success_only_after_all_checks hex24
           (send alice_id bob_id (of_Z 150)) (seeded [])).
  - vm_compute. reflexivity.
  - reflexivity.
Defined.

Lemma reseeding_retires_identifiers_witness :
  users (snd (create_users (fresh []))) !! alice_oid = Some alice /\
  users (snd (create_users (fresh []))) !! bob_oid = Some bob /\
  users (snd (create_users (snd (create_users (fresh []))))) !! alice_oid
    = None /\
  users (snd (create_users (snd (create_users (fresh []))))) !! bob_oid
    = None /\
  size (users (snd (create_users (snd (create_users (fresh [])))))) = 2%nat.
Proof.
  apply (reseeding_retires_identifiers (fresh [])
           (snd (create_users (fresh [])))
           (snd (create_users (snd (create_users (fresh [])))))
           (mkResponse 201 (UsersCreated "Users created" [alice; bob]))
           (mkResponse 201
              (UsersCreated "Users created"
                 [mkUser (bob_oid + 1)%N "Alice" (of_Z 1000);
                  mkUser (bob_oid + 2)%N "Bob" (of_Z 500)])));
    vm_compute; reflexivity.
Defined.

(** ** One account under two identifiers *)

Section SameAccount.
Variable castObjectId : value -> option ObjectId.

(** X12.  When the two identifiers are not [===] but cast to the same
    [ObjectId], both lookups return the same account, and a successful
    transfer leaves it with its balance plus the amount: the save of the
    credited copy overwrites the save of the debited one. *)
Theorem credit_overwrites_debit (req : request) (w w' : world)
    (r : response) (i : ObjectId) :
  keyed (users w) ->
  castObjectId (fromUserId req) = Some i ->
  castObjectId (toUserId req) = Some i ->
  transfer castObjectId req w = (Fulfilled r, w') ->
  status r = 200 ->
  exists acc,
    users w !! i = Some acc /\
    r = succeeded req acc acc /\
    users w' !! i =
      Some (mkUser i (name acc)
                   (add (balance acc) (number_of (amount req)))).
Proof.
  intros K Hi Hj E Hs.
  destruct (transfer_follows_a_path castObjectId req w) as (r0 & w0 & E0 & P).
  rewrite E0 in E. injection E as -> ->.
  destruct P as
    [| | | | | | | | | | | | |
     |i' j' src dst V Hi' Hj' R1 R2 Hsrc Hdst Hl V1 R3 V2 R4];
    try discriminate Hs.
  assert (i' = i) as -> by congruence.
  assert (j' = i) as -> by congruence.
  assert (dst = src) as -> by congruence.
  exists src. split; [done|]. split; [done|].
  pose proof (K i src Hsrc) as Ks. simpl in Ks.
  unfold after_credit, credited, stored. simpl.
  by rewrite Ks, lookup_insert_eq.
Qed.

End SameAccount.

(** Alice sends 150 to herself under a second spelling of her
    identifier, and holds 1150. *)
Lemma credit_overwrites_debit_witness :
  exists acc,
    users (seeded []) !! alice_oid = Some acc /\
    mkResponse 200
      (Transferred "Transferred $150 from Alice to Alice"
                   (of_Z 850) (of_Z 1150)) =
      succeeded (send alice_id (VString "65A1F0C2B7D4E8A9C3F10001") (of_Z 150))
                acc acc /\
    users (snd (transfer hex24
                  (send alice_id (VString "65A1F0C2B7D4E8A9C3F10001")
                        (of_Z 150))
                  (seeded []))) !! alice_oid =
      Some (mkUser alice_oid (name acc)
              (add (balance acc)
                 (number_of
                    (amount (send alice_id
                               (VString "65A1F0C2B7D4E8A9C3F10001")
                               (of_Z 150)))))).
Proof.
  apply (credit_overwrites_debit hex24
           (send alice_id (VString "65A1F0C2B7D4E8A9C3F10001") (of_Z 150))
           (seeded [])).
  - apply (bool_decide_unpack _). vm_compute. exact I.
  - vm_compute. reflexivity.
  - vm_compute. reflexivity.
  - vm_compute. reflexivity.
  - reflexivity.
Defined.
